(** * Options backtester: the rebalancing engine of [backtester/backtester.py]

    A shallow embedding of class [Backtest] and the properties of its
    constructor, stock entry, option entry, forced liquidation, quote lookup
    with imputation, ledger flush and main loop.

    Conventions of the embedding.
    - A Python/numpy float is a value of [num]: a finite rational, a signed
      infinity or NaN; the two zeros are not told apart.  The non-finite
      cases follow IEEE 754 as Python, numpy and pandas apply it.
    - The constructor is modelled in binary64 ([Binary64]): every sum and
      quotient is the exact result rounded to the nearest float, ties to
      even, with overflow to infinity and gradual underflow.
    - In the engine, arithmetic on finite values is exact (no rounding).
    - A pandas [Series] is a list of cells read positionally, a [DataFrame] a
      list of row records; a missing cell is [NaN] (numbers) or [None].
    - A Python exception is a value of [exn] carried by the [result] monad. *)

From Stdlib Require Import QArith Qround Qabs Qpower Lqa ZArith Lia.
From stdpp Require Import base option list gmap strings sorting.

Local Open Scope Q_scope.

(** ** Exceptions and the error monad *)

Inductive exn : Type :=
| ZeroDivisionError
| AttributeError (attr : string)
| ValueError
| TypeError
| KeyError (key : string)
| IndexError.

Inductive result (A : Type) : Type :=
| Ok (a : A)
| Raise (e : exn).
Arguments Ok {A} a.
Arguments Raise {A} e.

#[global] Instance result_ret : MRet result := fun _ a => Ok a.
#[global] Instance result_bind : MBind result := fun _ _ f m =>
  match m with
  | Ok a => f a
  | Raise e => Raise e
  end.

(** ** Numbers

    The type [num] and the arithmetic of the engine, exact on finite
    values. *)

Inductive num : Type :=
| Fin (q : Q)
| Inf (negative : bool)
| NaN.

Definition Qneg_b (q : Q) : bool := if Qlt_le_dec q 0 then true else false.
Definition Qlt_b (a b : Q) : bool := if Qlt_le_dec a b then true else false.

Definition isna (x : num) : bool :=
  match x with NaN => true | _ => false end.

Definition num_neg (x : num) : num :=
  match x with
  | Fin q => Fin (- q)
  | Inf b => Inf (negb b)
  | NaN => NaN
  end.

Definition num_abs (x : num) : num :=
  match x with
  | Fin q => Fin (Qabs q)
  | Inf _ => Inf false
  | NaN => NaN
  end.

Definition num_add (x y : num) : num :=
  match x, y with
  | Fin a, Fin b => Fin (a + b)
  | Fin _, Inf b | Inf b, Fin _ => Inf b
  | Inf a, Inf b => if Bool.eqb a b then Inf a else NaN
  | _, _ => NaN
  end.

Definition num_sub (x y : num) : num := num_add x (num_neg y).

Definition num_mul (x y : num) : num :=
  match x, y with
  | Fin a, Fin b => Fin (a * b)
  | Fin a, Inf b | Inf b, Fin a =>
      if Qeq_bool a 0 then NaN else Inf (xorb (Qneg_b a) b)
  | Inf a, Inf b => Inf (xorb a b)
  | _, _ => NaN
  end.

(** [x // y] on float arrays as pandas evaluates it: the floor of the
    quotient; a zero divisor gives a signed infinity (NaN for [0 // 0]). *)
Definition num_floordiv (x y : num) : num :=
  match x, y with
  | Fin a, Fin b =>
      if Qeq_bool b 0
      then (if Qeq_bool a 0 then NaN else Inf (Qneg_b a))
      else Fin (inject_Z (Qfloor (a / b)))
  | Fin a, Inf b =>
      if Qeq_bool a 0 then Fin 0
      else if Bool.eqb (Qneg_b a) b then Fin 0 else Fin (-1)
  | _, _ => NaN
  end.

(** [x < y]; every comparison with NaN is false. *)
Definition num_ltb (x y : num) : bool :=
  match x, y with
  | Fin a, Fin b => Qlt_b a b
  | Fin _, Inf b => negb b
  | Inf b, Fin _ => b
  | Inf a, Inf b => a && negb b
  | _, _ => false
  end.

(** builtin [sum(xs)]: NaN propagates. *)
Definition py_sum (xs : list num) : num := fold_left num_add xs (Fin 0).

(** [Series.sum()]: NaN cells are skipped. *)
Definition series_sum (xs : list num) : num :=
  fold_left num_add (List.filter (fun x => negb (isna x)) xs) (Fin 0).

(** [a.fillna(b)] on one numeric cell. *)
Definition fillna_num (a b : num) : num := if isna a then b else a.

(** [a.fillna(b)] on one cell of another type. *)
Definition fillna_cell {A : Type} (a b : option A) : option A :=
  match a with Some _ => a | None => b end.

(** ** Binary64 rounding

    [round q] is the binary64 value of the real number [q]: the nearest
    multiple of the unit in the last place of [q] (53 significant bits, down
    to the subnormal spacing [2^-1074]), ties to the even multiple, and an
    infinity from [2^1024 - 2^970] on. *)

Module Binary64.

Definition pow2 (k : Z) : Q := 2 ^ k.

(** The floor of the binary logarithm of a positive rational: with
    [k = log2 n - log2 d] for [a = n / d], it is [k - 1] or [k]. *)
Definition ilog2 (a : Q) : Z :=
  let k := (Z.log2 (Qnum a) - Z.log2 (Zpos (Qden a)))%Z in
  if Qlt_le_dec a (pow2 k) then (k - 1)%Z else k.

(** The nearest integer, a tie going to the even one. *)
Definition rne (x : Q) : Z :=
  let f := Qfloor x in
  match Qcompare (x - inject_Z f) (1 # 2) with
  | Lt => f
  | Gt => (f + 1)%Z
  | Eq => if Z.even f then f else (f + 1)%Z
  end.

(** The exponent of the unit in the last place of a positive [a]: 52 binary
    places below its leading bit, and never below the subnormal spacing. *)
Definition ulp_exp (a : Q) : Z := Z.max (ilog2 a - 52) (-1074).

(** The nearest multiple of that unit. *)
Definition nearest (a : Q) : Q :=
  inject_Z (rne (a / pow2 (ulp_exp a))) * pow2 (ulp_exp a).

Definition round (q : Q) : num :=
  if Qeq_bool q 0 then Fin 0
  else
    let r := nearest (Qabs q) in
    if Qle_bool (pow2 1024) r then Inf (Qneg_b q)
    else Fin (if Qneg_b q then - r else r).

(** A rational that is a binary64 value. *)
Definition is_float (q : Q) : Prop := exists r, round q = Fin r /\ r == q.

(** A multiple of the smallest subnormal [2^-1074]. *)
Definition on_grid (q : Q) : Prop := exists z : Z, q == inject_Z z * pow2 (-1074).

(** The unit roundoff and half the smallest subnormal. *)
Definition u : Q := pow2 (-53).
Definition eta : Q := pow2 (-1075).

(** Float [x + y] and [x / y] for a non-zero [y]: the exact result,
    rounded. *)
Definition add (x y : num) : num :=
  match x, y with
  | Fin a, Fin b => round (a + b)
  | _, _ => num_add x y
  end.

Definition div (x y : num) : num :=
  match x, y with
  | Fin a, Fin b => round (a / b)
  | Fin _, Inf _ => Fin 0
  | Inf a, Fin b => Inf (xorb a (Qneg_b b))
  | _, _ => NaN
  end.

(** [x == 0.0] *)
Definition is_zero (x : num) : bool :=
  match x with
  | Fin q => Qeq_bool q 0
  | _ => false
  end.

End Binary64.

(** ** Constructor: [Backtest.__init__] (lines 14-30)

    The values of the allocation dict are floats (a Python int is read as
    the float of its value). *)

Module Init.

Definition assets : list string := ["stocks"; "options"; "cash"]%string.

(** [allocation.get(a, 0.0)] *)
Definition dict_get (d : gmap string num) (k : string) (dflt : num) : num :=
  default dflt (d !! k).

(** builtin [sum] : [0 + x0 + x1 + ...], on exact rationals. *)
Definition py_sum (l : list Q) : Q := fold_left Qplus l 0.

(** builtin [sum] on floats: [0 + x0 + x1 + ...], every sum rounded. *)
Definition float_sum (l : list num) : num := fold_left Binary64.add l (Fin 0).

Definition total_allocation (allocation : gmap string num) : num :=
  float_sum (map (fun a => dict_get allocation a (Fin 0)) assets).

(** Python's [/] on floats raises on a zero divisor. *)
Definition py_div (x y : num) : result num :=
  if Binary64.is_zero y then Raise ZeroDivisionError else Ok (Binary64.div x y).

(** The loop [for asset in assets: self.allocation[asset] = ...]. *)
Fixpoint normalize (allocation : gmap string num) (total : num)
    (todo : list string) (acc : gmap string num) : result (gmap string num) :=
  match todo with
  | [] => Ok acc
  | asset :: rest =>
      v ← py_div (dict_get allocation asset (Fin 0)) total;
      normalize allocation total rest (<[asset := v]> acc)
  end.

(** The configuration part of a [Backtest] instance. *)
Record config : Type := {
  allocation : gmap string num;
  initial_capital : Q;
  stop_if_broke : bool;
  shares_per_contract : Q
}.

Definition __init__ (alloc : gmap string num) (capital spc : Q) : result config :=
  a ← normalize alloc (total_allocation alloc) assets ∅;
  Ok {| allocation := a; initial_capital := capital;
        stop_if_broke := true; shares_per_contract := spc |}.

(** The float sum of the three stored fractions. *)
Definition fractions_sum (c : config) : num :=
  float_sum (map (fun a => dict_get (allocation c) a (Fin 0)) assets).

(** The dicts [{60, 30, 10}], [{0.6, 0.3, 0.1}] and [{1e308, 1e308, 0.0}];
    a decimal literal denotes the float nearest to it. *)
Definition alloc_60_30_10 : gmap string num :=
  <["stocks" := Fin 60]> (<["options" := Fin 30]> (<["cash" := Fin 10]> ∅)).

Definition float_06 : Q := 5404319552844595 # 9007199254740992.
Definition float_03 : Q := 5404319552844595 # 18014398509481984.
Definition float_01 : Q := 3602879701896397 # 36028797018963968.

Definition alloc_fractions : gmap string num :=
  <["stocks" := Fin float_06]>
    (<["options" := Fin float_03]> (<["cash" := Fin float_01]> ∅)).

Definition float_1e308 : Q :=
  Eval vm_compute in
    match Binary64.round (inject_Z (10 ^ 308)) with Fin q => q | _ => 0 end.

(** [{stocks: 9595568737543470.0, options: 15.0,
      cash: -9595568737543464.0}]: the exact sum is 21, the float total 20. *)
Definition alloc_mixed : gmap string num :=
  <["stocks" := Fin 9595568737543470]>
    (<["options" := Fin 15]> (<["cash" := Fin (- 9595568737543464)]> ∅)).

(** [{stocks: 0.5, options: -0.5}] *)
Definition alloc_cancel : gmap string num :=
  <["stocks" := Fin (1 # 2)]> (<["options" := Fin (- (1 # 2))]> ∅).

Definition alloc_huge : gmap string num :=
  <["stocks" := Fin float_1e308]>
    (<["options" := Fin float_1e308]> (<["cash" := Fin 0]> ∅)).

End Init.

(** ** Data model *)

Definition date : Type := Z.

(** Modelled from the spec: [enums.py] is not under src.  A direction's value
    is the name of the quote column an order of that direction trades at (a
    BUY pays the ask, a SELL receives the bid); [~d] is the opposite
    direction; [get_order] gives the four tags of the product of direction
    and signal. *)
Inductive Direction : Type := BUY | SELL.
Inductive Signal : Type := ENTRY | EXIT.
Inductive Order : Type := BTO | BTC | STO | STC.

Definition invert (d : Direction) : Direction :=
  match d with BUY => SELL | SELL => BUY end.

Definition get_order (d : Direction) (s : Signal) : Order :=
  match d, s with
  | BUY, ENTRY => BTO
  | BUY, EXIT => STC
  | SELL, ENTRY => STO
  | SELL, EXIT => BTC
  end.

(** One row of the options table, under the column names the code reads
    ([quotedate], [optionroot], [type], the quote columns [bid] and [ask]). *)
Record quote : Type := {
  quotedate : date;
  optionroot : string;
  underlying : string;
  expiration : date;
  type : string;
  strike : Q;
  bid : Q;
  ask : Q
}.

(** The column [schema[direction.value]] of a quote. *)
Definition price_at (d : Direction) (q : quote) : Q :=
  match d with BUY => ask q | SELL => bid q end.

(** One row of the stocks table ([sma] is NaN until the window is full). *)
Record stock_row : Type := {
  s_date : date;
  s_symbol : string;
  adjClose : Q;
  sma : num
}.

Record Stock : Type := { symbol : string; percentage : Q }.

(** Modelled from the spec: [strategy.py] is not under src.  A strategy is
    an ordered sequence of legs, each with a direction, an entry filter and
    an exit filter from a slice to a boolean mask, and a threshold predicate
    from held and current costs to a mask.
    A strategy leg: filters are evaluated row by row; the exit filter sees
    the rows of the left join, where [None] is a row of missing values. *)
Record StrategyLeg : Type := {
  direction : Direction;
  entry_filter : quote -> bool;
  exit_filter : option quote -> bool
}.

(** [_sell_options] labels the frame of the i-th leg leg_(i+1) and reads it
    back under [leg.name] (lines 205 and 214): the legs are named after
    their position, and a leg is addressed by its position in [legs]. *)
Record Strategy : Type := {
  legs : list StrategyLeg;
  filter_thresholds : list num -> list num -> list bool
}.

(** The seven columns of one leg in the inventory, in a candidate frame or in
    the trade log. *)
Record leg_cells : Type := {
  l_contract : option string;
  l_underlying : option string;
  l_expiration : option date;
  l_type : option string;
  l_strike : option Q;
  l_cost : num;
  l_order : option Order
}.

Definition nan_cells : leg_cells :=
  {| l_contract := None; l_underlying := None; l_expiration := None;
     l_type := None; l_strike := None; l_cost := NaN; l_order := None |}.

(** The totals block. *)
Record totals : Type := {
  t_cost : num;
  t_qty : num;
  t_date : option date
}.

(** A frame row: the leg blocks and, when the frame has one, the totals
    block. *)
Record frame_row : Type := {
  r_legs : list leg_cells;
  r_totals : option totals
}.

(** An inventory or trade-log row always has the totals block. *)
Record combo : Type := {
  c_legs : list leg_cells;
  c_totals : totals
}.

Definition to_frame (c : combo) : frame_row :=
  {| r_legs := c_legs c; r_totals := Some (c_totals c) |}.

Record holding : Type := {
  h_symbol : string;
  h_price : Q;
  h_qty : num
}.

(** A row of the balance ledger.  [b_stocks] has one cell per configured
    stock; the last two fields are the derived columns. *)
Record balance_row : Type := {
  b_date : date;
  b_total_capital : num;
  b_cash : num;
  b_stocks : list num;
  b_options_qty : num;
  b_calls_capital : num;
  b_puts_capital : num;
  b_stocks_qty : num;
  b_options_capital : num;
  b_stocks_capital : num
}.

(** A [Backtest] instance during a run. *)
Record Backtest : Type := {
  allocation : gmap string num;
  initial_capital : Q;
  shares_per_contract : Q;
  _stocks : list Stock;
  _options_strategy : Strategy;
  current_cash : num;
  _options_inventory : list combo;
  _stocks_inventory : list holding;
  trade_log : list combo;
  balance : list balance_row
}.

Definition set_cash (bt : Backtest) (c : num) : Backtest :=
  {| allocation := allocation bt; initial_capital := initial_capital bt;
     shares_per_contract := shares_per_contract bt; _stocks := _stocks bt;
     _options_strategy := _options_strategy bt; current_cash := c;
     _options_inventory := _options_inventory bt;
     _stocks_inventory := _stocks_inventory bt;
     trade_log := trade_log bt; balance := balance bt |}.

Definition set_options_inventory (bt : Backtest) (inv : list combo) : Backtest :=
  {| allocation := allocation bt; initial_capital := initial_capital bt;
     shares_per_contract := shares_per_contract bt; _stocks := _stocks bt;
     _options_strategy := _options_strategy bt; current_cash := current_cash bt;
     _options_inventory := inv;
     _stocks_inventory := _stocks_inventory bt;
     trade_log := trade_log bt; balance := balance bt |}.

Definition set_stocks_inventory (bt : Backtest) (inv : list holding) : Backtest :=
  {| allocation := allocation bt; initial_capital := initial_capital bt;
     shares_per_contract := shares_per_contract bt; _stocks := _stocks bt;
     _options_strategy := _options_strategy bt; current_cash := current_cash bt;
     _options_inventory := _options_inventory bt;
     _stocks_inventory := inv;
     trade_log := trade_log bt; balance := balance bt |}.

Definition set_trade_log (bt : Backtest) (log : list combo) : Backtest :=
  {| allocation := allocation bt; initial_capital := initial_capital bt;
     shares_per_contract := shares_per_contract bt; _stocks := _stocks bt;
     _options_strategy := _options_strategy bt; current_cash := current_cash bt;
     _options_inventory := _options_inventory bt;
     _stocks_inventory := _stocks_inventory bt;
     trade_log := log; balance := balance bt |}.

Definition set_balance (bt : Backtest) (b : list balance_row) : Backtest :=
  {| allocation := allocation bt; initial_capital := initial_capital bt;
     shares_per_contract := shares_per_contract bt; _stocks := _stocks bt;
     _options_strategy := _options_strategy bt; current_cash := current_cash bt;
     _options_inventory := _options_inventory bt;
     _stocks_inventory := _stocks_inventory bt;
     trade_log := trade_log bt; balance := b |}.

(** [_initialize_inventories] (lines 140-148): both inventories empty. *)
Definition _initialize_inventories (bt : Backtest) : Backtest :=
  set_stocks_inventory (set_options_inventory bt []) [].

(** ** Stock entry: [_buy_stocks] (lines 269-289) *)

(** [if sma_days:] *)
Definition truthy (sma_days : option Z) : bool :=
  match sma_days with
  | Some n => negb (n =? 0)%Z
  | None => false
  end.

(** One cell of [qty] (lines 284-287). *)
Definition stock_qty (sma_days : option Z) (allocation : num) (pct : Q)
    (row : stock_row) : num :=
  let q := num_floordiv (num_mul allocation (Fin pct)) (Fin (adjClose row)) in
  if truthy sma_days
  then (if num_ltb (sma row) (Fin (adjClose row)) then q else Fin 0)
  else q.

Definition in_symbols (syms : list string) (r : stock_row) : bool :=
  existsb (String.eqb (s_symbol r)) syms.

(** The percentages (in the order of the configured stocks) meet the prices
    (in the order of the slice) position by position; arrays of different
    lengths do not combine. *)
Definition _buy_stocks (bt : Backtest) (stocks : list stock_row)
    (allocation : num) (sma_days : option Z) : result Backtest :=
  let stock_symbols := map symbol (_stocks bt) in
  let inventory_stocks := List.filter (in_symbols stock_symbols) stocks in
  if (length inventory_stocks =? length (_stocks bt))%nat
  then Ok (set_stocks_inventory bt
             (zip_with (fun st row =>
                          {| h_symbol := symbol st; h_price := adjClose row;
                             h_qty := stock_qty sma_days allocation (percentage st) row |})
                       (_stocks bt) inventory_stocks))
  else Raise ValueError.

(** [_current_stock_capital] (lines 232-246): left join of the inventory with
    the slice on the symbol, then a NaN-skipping sum. *)
Definition _current_stock_capital (bt : Backtest) (stocks : list stock_row) : num :=
  series_sum
    (flat_map (fun h =>
       match List.filter (fun r => String.eqb (s_symbol r) (h_symbol h)) stocks with
       | [] => [NaN]
       | ms => map (fun r => num_mul (Fin (adjClose r)) (h_qty h)) ms
       end) (_stocks_inventory bt)).

(** ** Quote lookup: [_get_current_option_quotes] (lines 471-508) *)

(** A row of [leg_options]: the inventory's contract, the joined quote
    ([None] when the slice has no row for the contract), the exit order tag
    and the signed, scaled closing cost. *)
Record leg_quote : Type := {
  lq_contract : option string;
  lq_quote : option quote;
  lq_order : Order;
  lq_cost : num
}.

(** The cell of leg [i] in an inventory row. *)
Definition leg_of (i : nat) (c : combo) : leg_cells := nth i (c_legs c) nan_cells.

(** [left.merge(options, how='left', left_on='contract', right_on=...)]:
    the left rows in order, each once per matching quote, or once with
    missing values when nothing matches. *)
Definition left_join (keys : list (option string)) (options : list quote)
    : list (option string * option quote) :=
  flat_map (fun k =>
    match k with
    | None => [(k, None)]
    | Some c =>
        match List.filter (fun q => String.eqb (optionroot q) c) options with
        | [] => [(k, None)]
        | ms => map (fun q => (k, Some q)) ms
        end
    end) keys.

(** Lines 499-504: the quote of the closing side, negated when the closing
    order is a SELL, times the multiplier. *)
Definition exit_cost (spc : Q) (d : Direction) (q : option quote) : num :=
  match q with
  | None => NaN
  | Some q =>
      let cost := Fin (price_at (invert d) q) in
      let cost := match invert d with SELL => num_neg cost | BUY => cost end in
      num_mul cost (Fin spc)
  end.

(** One leg's frame; assigning the inventory's index to a frame of another
    length raises. *)
Definition leg_quotes (bt : Backtest) (options : list quote) (i : nat)
    (leg : StrategyLeg) : result (list leg_quote) :=
  let joined := left_join (map (fun c => l_contract (leg_of i c)) (_options_inventory bt))
                          options in
  if (length joined =? length (_options_inventory bt))%nat
  then Ok (map (fun kq =>
                  {| lq_contract := fst kq; lq_quote := snd kq;
                     lq_order := get_order (direction leg) EXIT;
                     lq_cost := exit_cost (shares_per_contract bt) (direction leg) (snd kq) |})
               joined)
  else Raise ValueError.

Fixpoint quotes_from (bt : Backtest) (options : list quote) (i : nat)
    (ls : list StrategyLeg) : result (list (list leg_quote)) :=
  match ls with
  | [] => Ok []
  | leg :: rest =>
      f ← leg_quotes bt options i leg;
      fs ← quotes_from bt options (S i) rest;
      Ok (f :: fs)
  end.

Definition _get_current_option_quotes (bt : Backtest) (options : list quote)
    : result (list (list leg_quote)) :=
  quotes_from bt options 0 (legs (_options_strategy bt)).

(** ** Imputation: [_impute_missing_option_values] (lines 510-523) *)

Definition fillna_legs (a b : leg_cells) : leg_cells :=
  {| l_contract := fillna_cell (l_contract a) (l_contract b);
     l_underlying := fillna_cell (l_underlying a) (l_underlying b);
     l_expiration := fillna_cell (l_expiration a) (l_expiration b);
     l_type := fillna_cell (l_type a) (l_type b);
     l_strike := fillna_cell (l_strike a) (l_strike b);
     l_cost := fillna_num (l_cost a) (l_cost b);
     l_order := fillna_cell (l_order a) (l_order b) |}.

Definition fillna_totals (a b : totals) : totals :=
  {| t_cost := fillna_num (t_cost a) (t_cost b);
     t_qty := fillna_num (t_qty a) (t_qty b);
     t_date := fillna_cell (t_date a) (t_date b) |}.

Definition fillna_row (a b : frame_row) : frame_row :=
  {| r_legs := imap (fun j cell =>
                       match r_legs b !! j with
                       | Some cb => fillna_legs cell cb
                       | None => cell
                       end) (r_legs a);
     r_totals := match r_totals a, r_totals b with
                 | Some ta, Some tb => Some (fillna_totals ta tb)
                 | ta, _ => ta
                 end |}.

(** [a.fillna(b)] for frames on the same index: cell by cell, only the
    columns of [a]. *)
Definition fillna_frame (a b : list frame_row) : list frame_row :=
  imap (fun i ra =>
          match b !! i with
          | Some rb => fillna_row ra rb
          | None => ra
          end) a.

Definition set_cost (c : leg_cells) (x : num) : leg_cells :=
  {| l_contract := l_contract c; l_underlying := l_underlying c;
     l_expiration := l_expiration c; l_type := l_type c;
     l_strike := l_strike c; l_cost := x; l_order := l_order c |}.

(** [df]: the inventory with the cost of every strategy leg set to 0. *)
Definition zero_costs (bt : Backtest) : list frame_row :=
  map (fun c =>
         {| r_legs := imap (fun j cell =>
                              if (j <? length (legs (_options_strategy bt)))%nat
                              then set_cost cell (Fin 0) else cell) (c_legs c);
            r_totals := Some (c_totals c) |})
      (_options_inventory bt).

Definition _impute_missing_option_values (bt : Backtest)
    (exit_candidates : list frame_row) : list frame_row :=
  fillna_frame exit_candidates (zero_costs bt).

(** ** Forced liquidation: [_sell_options] (lines 196-230) *)

(** [pd.concat(frames, axis=1)] for per-leg frames over an index of [n]
    rows: row [i] holds cell [i] of every frame, missing cells where a frame
    is shorter. *)
Definition concat_axis1 (n : nat) (frames : list (list leg_cells))
    : list (list leg_cells) :=
  map (fun i => map (fun f => nth i f nan_cells) frames) (seq 0 n).

(** Line 204, [.loc[:, fields.values()]]: the columns named contract,
    underlying, expiration, type, strike, cost and order of [leg_options].
    The contract column is the inventory's, the cost the computed one. *)
Definition close_cells (r : leg_quote) : leg_cells :=
  {| l_contract := lq_contract r;
     l_underlying := underlying <$> lq_quote r;
     l_expiration := expiration <$> lq_quote r;
     l_type := type <$> lq_quote r;
     l_strike := strike <$> lq_quote r;
     l_cost := lq_cost r;
     l_order := Some (lq_order r) |}.

(** [sum([frame[l.name]['cost'] for l in legs])] on one row. *)
Definition row_cost (cells : list leg_cells) : num := py_sum (map l_cost cells).

Definition no_totals (cells : list leg_cells) : frame_row :=
  {| r_legs := cells; r_totals := None |}.

(** The candidate frame of [_sell_options] after line 213. *)
Definition sell_candidates (bt : Backtest) (leg_candidates : list (list leg_quote))
    : list frame_row :=
  let candidates :=
    map no_totals (concat_axis1 (length (_options_inventory bt))
                                (map (map close_cells) leg_candidates)) in
  let imputed_inventory :=
    _impute_missing_option_values bt (map to_frame (_options_inventory bt)) in
  fillna_frame candidates imputed_inventory.

(** Lines 214-221: the totals block joined to the candidates. *)
Definition with_totals (d : date) (candidates : list frame_row) (qtys : list num)
    : list combo :=
  zip_with (fun r q =>
              {| c_legs := r_legs r;
                 c_totals := {| t_cost := row_cost (r_legs r); t_qty := q;
                                t_date := Some d |} |})
           candidates qtys.

Definition cash_delta (closed : list combo) : num :=
  py_sum (map (fun c => num_mul (t_cost (c_totals c)) (t_qty (c_totals c))) closed).

Definition _sell_options (bt : Backtest) (options : list quote) (d : date)
    : result Backtest :=
  leg_candidates ← _get_current_option_quotes bt options;
  match leg_candidates with
  | [] => Raise ValueError
  | _ =>
      let candidates := sell_candidates bt leg_candidates in
      let qtys := map (fun c => t_qty (c_totals c)) (_options_inventory bt) in
      let candidates := with_totals d candidates qtys in
      Ok (set_cash
            (set_trade_log (set_options_inventory bt []) (trade_log bt ++ candidates))
            (num_sub (current_cash bt) (cash_delta candidates)))
  end.

(** ** Option entry: [_execute_option_entries] (lines 334-387) *)

(** Lines 359-370 for one candidate quote of a leg. *)
Definition entry_cells (spc : Q) (leg : StrategyLeg) (q : quote) : leg_cells :=
  let cost := Fin (price_at (direction leg) q) in
  let cost := match direction leg with SELL => num_neg cost | BUY => cost end in
  {| l_contract := Some (optionroot q);
     l_underlying := Some (underlying q);
     l_expiration := Some (expiration q);
     l_type := Some (type q);
     l_strike := Some (strike q);
     l_cost := num_mul cost (Fin spc);
     l_order := Some (get_order (direction leg) ENTRY) |}.

(** The loop of lines 350-372; [None] is the early return on a leg without
    candidates. *)
Fixpoint entry_signals_of (spc : Q) (ls : list StrategyLeg) (subset : list quote)
    : option (list (list leg_cells)) :=
  match ls with
  | [] => Some []
  | leg :: rest =>
      match List.filter (entry_filter leg) subset with
      | [] => None
      | leg_entries =>
          match entry_signals_of spc rest subset with
          | None => None
          | Some fs => Some (map (entry_cells spc leg) leg_entries :: fs)
          end
      end
  end.

(** [a + b] for two Series on range indexes: the sum where both have a cell,
    NaN elsewhere. *)
Fixpoint series_add (a b : list num) : list num :=
  match a, b with
  | x :: a', y :: b' => num_add x y :: series_add a' b'
  | [], _ => map (fun _ => NaN) b
  | _, [] => map (fun _ => NaN) a
  end.

(** builtin [sum] of a non-empty list of Series: [0 + s1 + s2 + ...]. *)
Definition sum_series (ss : list (list num)) : list num :=
  match ss with
  | [] => []
  | s :: rest => fold_left series_add rest (map (num_add (Fin 0)) s)
  end.

(** Line 376. *)
Definition entry_qty (options_allocation total_cost : num) : num :=
  num_abs (num_floordiv options_allocation total_cost).

(** Lines 375-380: the frame of entry signals with its totals block. *)
Definition entry_frame (d : date) (options_allocation : num)
    (entry_signals : list (list leg_cells)) : list combo :=
  let total_costs := sum_series (map (map l_cost) entry_signals) in
  zip_with (fun cells tc =>
              {| c_legs := cells;
                 c_totals := {| t_cost := tc;
                                t_qty := entry_qty options_allocation tc;
                                t_date := Some d |} |})
           (concat_axis1 (length total_costs) entry_signals) total_costs.

(** [_pick_entry_signals] (lines 442-456): the first row, if any. *)
Definition _pick_entry_signals (entry_signals : list combo) : list combo :=
  match entry_signals with
  | [] => []
  | r :: _ => [r]
  end.

Definition inventory_contracts (bt : Backtest) : list (option string) :=
  concat (imap (fun i (_ : StrategyLeg) =>
                  map (fun c => l_contract (leg_of i c)) (_options_inventory bt))
               (legs (_options_strategy bt))).

Definition held (contracts : list (option string)) (q : quote) : bool :=
  existsb (fun k => match k with
                    | Some c => String.eqb c (optionroot q)
                    | None => false
                    end) contracts.

Definition _execute_option_entries (bt : Backtest) (d : date) (options : list quote)
    (options_allocation : num) : result Backtest :=
  match legs (_options_strategy bt) with
  | [] => Raise ValueError
  | ls =>
      let subset_options :=
        List.filter (fun q => negb (held (inventory_contracts bt) q)) options in
      match entry_signals_of (shares_per_contract bt) ls subset_options with
      | None => Ok bt
      | Some entry_signals =>
          let total_costs := sum_series (map (map l_cost) entry_signals) in
          let entries :=
            _pick_entry_signals (entry_frame d options_allocation entry_signals) in
          Ok (set_cash
                (set_trade_log
                   (set_options_inventory bt (_options_inventory bt ++ entries))
                   (trade_log bt ++ entries))
                (num_sub (current_cash bt) (py_sum total_costs)))
      end
  end.

(** ** Filter-driven exits: [_execute_option_exits] (lines 389-440) *)

(** Lines 411-414, [reindex(columns=fields.keys())] then the renaming: the
    columns of the slice itself, so the contract is the joined one and the
    cost the quote of the closing side. *)
Definition exit_cells (d : Direction) (r : leg_quote) : leg_cells :=
  {| l_contract := optionroot <$> lq_quote r;
     l_underlying := underlying <$> lq_quote r;
     l_expiration := expiration <$> lq_quote r;
     l_type := type <$> lq_quote r;
     l_strike := strike <$> lq_quote r;
     l_cost := match lq_quote r with
               | Some q => Fin (price_at (invert d) q)
               | None => NaN
               end;
     l_order := Some (lq_order r) |}.

(** Lines 407-409: [flt(quotes) | missing_contracts_mask]. *)
Definition leg_exit_mask (leg : StrategyLeg) (f : list leg_quote) : list bool :=
  map (fun r => exit_filter leg (lq_quote r) || isna (lq_cost r)) f.

(** [x | y] on two masks over the same index. *)
Definition mask_or (x y : list bool) : list bool := zip_with orb x y.

(** [reduce(lambda x, y: x | y, masks)]; no initial value. *)
Definition reduce_or (masks : list (list bool)) : result (list bool) :=
  match masks with
  | [] => Raise TypeError
  | m :: ms => Ok (fold_left mask_or ms m)
  end.

(** Lines 430-432. *)
Definition exits_mask (strategy : Strategy) (held_costs total_costs : list num)
    (filter_masks : list (list bool)) : result (list bool) :=
  let threshold_exits := filter_thresholds strategy held_costs total_costs in
  filter_mask ← reduce_or filter_masks;
  Ok (mask_or threshold_exits filter_mask).

(** [frame[mask]] and its complement [frame.drop(frame[mask].index)]. *)
Definition select {A : Type} (mask : list bool) (xs : list A) : list A :=
  map snd (List.filter fst (zip mask xs)).
Definition drop_rows {A : Type} (mask : list bool) (xs : list A) : list A :=
  map snd (List.filter (fun bx => negb (fst bx)) (zip mask xs)).

(** [self.legs] (line 424).  Class [Backtest] has the attributes set in
    [__init__] and [run], its four properties and its methods; none is named
    [legs] (the legs are [self._options_strategy.legs]), so the lookup
    raises. *)
Definition self_legs (bt : Backtest) : result (list StrategyLeg) :=
  Raise (AttributeError "legs").

(** Lines 424-440, given the value of [self.legs]. *)
Definition exits_from (bt : Backtest) (d : date) (exit_candidates : list frame_row)
    (filter_masks : list (list bool)) (ls : list StrategyLeg) : result Backtest :=
  let inv := _options_inventory bt in
  let qtys := map (fun c => t_qty (c_totals c)) inv in
  let total_costs :=
    map (fun r => py_sum (imap (fun j (_ : StrategyLeg) =>
                                  l_cost (nth j (r_legs r) nan_cells)) ls))
        exit_candidates in
  let candidates :=
    zip_with (fun rt q =>
                {| c_legs := r_legs (fst rt);
                   c_totals := {| t_cost := snd rt; t_qty := q; t_date := Some d |} |})
             (zip exit_candidates total_costs) qtys in
  mask ← exits_mask (_options_strategy bt)
                    (map (fun c => t_cost (c_totals c)) inv) total_costs filter_masks;
  let exits := select mask candidates in
  let total_costs :=
    zip_with num_mul (select mask total_costs)
             (map (fun c => t_qty (c_totals c)) exits) in
  Ok (set_cash
        (set_trade_log (set_options_inventory bt (drop_rows mask inv))
                       (trade_log bt ++ exits))
        (num_sub (current_cash bt) (py_sum total_costs))).

Definition _execute_option_exits (bt : Backtest) (d : date) (options : list quote)
    : result Backtest :=
  let strategy := _options_strategy bt in
  current_options_quotes ← _get_current_option_quotes bt options;
  let filter_masks := zip_with leg_exit_mask (legs strategy) current_options_quotes in
  match current_options_quotes with
  | [] => Raise ValueError
  | _ =>
      let exit_candidates :=
        map no_totals
            (concat_axis1 (length (_options_inventory bt))
               (zip_with (fun leg f => map (exit_cells (direction leg)) f)
                         (legs strategy) current_options_quotes)) in
      let exit_candidates := _impute_missing_option_values bt exit_candidates in
      ls ← self_legs bt;
      exits_from bt d exit_candidates filter_masks ls
  end.

(** ** Rebalance: [_rebalance_portfolio] (lines 166-194) *)

(** [self.allocation[key]] *)
Definition allocation_item (bt : Backtest) (key : string) : result num :=
  match allocation bt !! key with
  | Some v => Ok v
  | None => Raise (KeyError key)
  end.

Definition stocks_value (bt : Backtest) : num :=
  py_sum (map (fun h => num_mul (Fin (h_price h)) (h_qty h)) (_stocks_inventory bt)).

Definition options_value (bt : Backtest) : num :=
  py_sum (map (fun c => num_mul (t_cost (c_totals c)) (t_qty (c_totals c)))
              (_options_inventory bt)).

(** Lines 179-194: everything after the forced liquidation. *)
Definition rebuild (bt : Backtest) (d : date) (stocks : list stock_row)
    (options : list quote) (sma_days : option Z) : result Backtest :=
  let stock_capital := _current_stock_capital bt stocks in
  let total_capital := num_add (current_cash bt) stock_capital in
  o ← allocation_item bt "options";
  let options_allocation := num_mul o total_capital in
  s ← allocation_item bt "stocks";
  let stocks_allocation := num_mul s total_capital in
  let bt := _initialize_inventories bt in
  bt ← _buy_stocks bt stocks stocks_allocation sma_days;
  bt ← _execute_option_entries bt d options options_allocation;
  Ok (set_cash bt (num_sub (num_sub total_capital (options_value bt)) (stocks_value bt))).

Definition _rebalance_portfolio (bt : Backtest) (d : date) (stocks : list stock_row)
    (options : list quote) (sma_days : option Z) : result Backtest :=
  bt ← _sell_options bt options d;
  rebuild bt d stocks options sma_days.

(** ** Ledger flush: [_update_balance] (lines 291-332) *)

Definition in_period (start_date end_date t : date) : bool :=
  ((start_date <=? t) && (t <? end_date))%Z.

Definition same_contract (k : option string) (c : string) : bool :=
  match k with
  | Some c' => String.eqb c' c
  | None => false
  end.

(** The holdings a flush reads: cash and the two inventories. *)
Record holdings : Type := {
  hd_cash : num;
  hd_options : list combo;
  hd_stocks : list holding
}.

Definition holdings_of (bt : Backtest) : holdings :=
  {| hd_cash := current_cash bt; hd_options := _options_inventory bt;
     hd_stocks := _stocks_inventory bt |}.

Section Flush.
Variable strategy : Strategy.
Variable spc : Q.
Variable configured : list Stock.
Variable hd : holdings.
Variables start_date end_date : date.
Variable stocks : list stock_row.
Variable options : list quote.

Definition stocks_data : list stock_row :=
  List.filter (fun r => in_period start_date end_date (s_date r)) stocks.
Definition options_data : list quote :=
  List.filter (fun q => in_period start_date end_date (quotedate q)) options.

(** Lines 302-311 for one contract of a leg inventory, read on date [t]:
    the quantity of the first inventory row holding the contract, whether
    one of these rows is a call, and the quote of the closing side times
    quantity and multiplier (NaN on a date without a quote). *)
Definition contract_value (i : nat) (leg : StrategyLeg) (c : combo) (t : date)
    : result (bool * num) :=
  match l_contract (leg_of i c) with
  | None => Raise IndexError
  | Some contract =>
      let leg_inventory_contract :=
        List.filter (fun c' => same_contract (l_contract (leg_of i c')) contract)
                    (hd_options hd) in
      match leg_inventory_contract with
      | [] => Raise IndexError
      | first :: _ =>
          let qty := t_qty (c_totals first) in
          let is_call :=
            existsb (fun c' => match l_type (leg_of i c') with
                               | Some ty => String.eqb ty "call"
                               | None => false
                               end) leg_inventory_contract in
          let current :=
            match List.filter (fun q => String.eqb (optionroot q) contract
                                        && (quotedate q =? t)%Z) options_data with
            | q :: _ => Fin (price_at (invert (direction leg)) q)
            | [] => NaN
            end in
          Ok (is_call, num_mul (num_mul current qty) (Fin spc))
      end
  end.

(** The loops of lines 299-311 on date [t]: (calls value, puts value). *)
Fixpoint add_contracts (i : nat) (leg : StrategyLeg) (cs : list combo) (t : date)
    (acc : num * num) : result (num * num) :=
  match cs with
  | [] => Ok acc
  | c :: rest =>
      '(is_call, v) ← contract_value i leg c t;
      add_contracts i leg rest t
        (if (is_call : bool) then (num_add (fst acc) v, snd acc)
         else (fst acc, num_add (snd acc) v))
  end.

Fixpoint add_legs (i : nat) (ls : list StrategyLeg) (t : date) (acc : num * num)
    : result (num * num) :=
  match ls with
  | [] => Ok acc
  | leg :: rest =>
      acc ← add_contracts i leg (hd_options hd) t acc;
      add_legs (S i) rest t acc
  end.

(** The cells of [calls_value] and [puts_value] that the ledger row of
    date [t] receives; a date outside their index gets NaN. *)
Definition option_values (t : date) : result (num * num) :=
  v ← add_legs 0 (legs strategy) t (Fin 0, Fin 0);
  if existsb (fun q => (quotedate q =? t)%Z) options_data
  then Ok v else Ok (NaN, NaN).

(** Lines 313-315: inner join of the stock inventory with the period's
    stock rows: (date, symbol, cost). *)
Definition stocks_current : list (date * string * num) :=
  flat_map (fun h =>
    map (fun r => (s_date r, s_symbol r, num_mul (h_qty h) (Fin (adjClose r))))
        (List.filter (fun r => String.eqb (s_symbol r) (h_symbol h)) stocks_data))
    (hd_stocks hd).

Definition stock_frame (st : Stock) : list (date * string * num) :=
  List.filter (fun x => String.eqb (snd (fst x)) (symbol st)) stocks_current.

(** The dates of the per-stock frames: the index of [add] after the
    [pd.concat] of line 317. *)
Definition stock_index : list date :=
  remove_dups (flat_map (fun st => map (fun x => fst (fst x)) (stock_frame st))
                        configured).

(** The index of [calls_value] and [puts_value] (lines 296-297): the quote
    dates of the period in the order of their first row; the in-place
    additions of lines 309 and 311 keep it. *)
Definition quote_index : list date :=
  reverse (remove_dups (reverse (map quotedate options_data))).

(** Whether [add] has no row when [calls capital] is assigned (line 325).
    A frame without rows takes the index of the first Series assigned to
    it, and the columns assigned before (the stock columns, [cash] and
    [options qty]) are NaN in the rows it gets. *)
Definition takes_quote_index : bool :=
  match stock_index with
  | [] => true
  | _ => false
  end.

(** The index of [add] when it is appended to the ledger. *)
Definition add_index : list date :=
  if takes_quote_index then quote_index else stock_index.

Definition stock_cell (t : date) (st : Stock) : num :=
  match List.filter (fun x => (fst (fst x) =? t)%Z) (stock_frame st) with
  | x :: _ => snd x
  | [] => NaN
  end.

Definition ledger_row (t : date) : result balance_row :=
  v ← option_values t;
  Ok {| b_date := t;
        b_total_capital := NaN;
        b_cash := if takes_quote_index then NaN else hd_cash hd;
        b_stocks := map (stock_cell t) configured;
        b_options_qty :=
          if takes_quote_index then NaN
          else series_sum (map (fun c => t_qty (c_totals c)) (hd_options hd));
        b_calls_capital := fst v;
        b_puts_capital := snd v;
        b_stocks_qty := series_sum (map h_qty (hd_stocks hd));
        b_options_capital := NaN;
        b_stocks_capital := NaN |}.

Fixpoint ledger_rows (ts : list date) : result (list balance_row) :=
  match ts with
  | [] => Ok []
  | t :: rest =>
      r ← ledger_row t;
      rs ← ledger_rows rest;
      Ok (r :: rs)
  end.

(** The frame [add].  The loops of lines 299-311 run before it is built
    and fail or not whatever the date, so they are run once for their
    failure; then [pd.concat] of no per-stock frame raises. *)
Definition flush_rows : result (list balance_row) :=
  _ ← add_legs 0 (legs strategy) start_date (Fin 0, Fin 0);
  match configured with
  | [] => Raise ValueError
  | _ => ledger_rows add_index
  end.

End Flush.

Definition _update_balance (bt : Backtest) (start_date end_date : date)
    (stocks : list stock_row) (options : list quote) : result Backtest :=
  add ← flush_rows (_options_strategy bt) (shares_per_contract bt) (_stocks bt)
                   (holdings_of bt) start_date end_date stocks options;
  Ok (set_balance bt (balance bt ++ add)).

(** ** Main loop: [run] (lines 73-138) *)

(** The market data of a run.  [bms] is the value of
    [pd.date_range(start_date, end_date, freq=str(rebalance_freq) + 'BMS')],
    an increasing sequence of dates. *)
Record market : Type := {
  m_stocks : list stock_row;
  m_options : list quote;
  start_date : date;
  end_date : date;
  bms : list date
}.

Definition rebalancing_days (m : market) (rebalance_freq : Z) : list date :=
  start_date m :: (if (rebalance_freq =? 0)%Z then [] else bms m).

Definition positions (d : date) (days : list date) : list nat :=
  map fst (List.filter (fun x => (snd x =? d)%Z) (imap (fun i x => (i, x)) days)).

(** Lines 120-121.  [get_loc] is a position for a date that occurs once and
    a slice for a repeated one, which [- 1] rejects. *)
Definition previous_rb_date (days : list date) (d : date) : result date :=
  match positions d days with
  | nil => Raise (KeyError "date")
  | cons O nil => Ok d
  | cons (S k) nil => Ok (nth k days d)
  | _ => Raise TypeError
  end.

Definition is_rebalancing_day (days : list date) (d : date) : bool :=
  existsb (Z.eqb d) days.

(** One turn of the loop of lines 118-125. *)
Definition step (m : market) (days : list date) (sma_days : option Z)
    (bt : Backtest) (x : date * list stock_row * list quote) : result Backtest :=
  let '(d, stocks, options) := x in
  if is_rebalancing_day days d
  then
    previous ← previous_rb_date days d;
    bt ← _update_balance bt previous d (m_stocks m) (m_options m);
    _rebalance_portfolio bt d stocks options sma_days
  else Ok bt.

Fixpoint loop (m : market) (days : list date) (sma_days : option Z)
    (bt : Backtest) (data_iterator : list (date * list stock_row * list quote))
    : result Backtest :=
  match data_iterator with
  | [] => Ok bt
  | x :: rest =>
      bt ← step m days sma_days bt x;
      loop m days sma_days bt rest
  end.

(** [Series.add(other, level, fill_value)] on one cell of two Series over the
    same index.  The second positional parameter is [level]; it selects a
    level of a MultiIndex when the two indexes differ and is not an operand.
    A cell missing on one side only is read as [fill_value]. *)
Definition series_add_fill (x other level fill_value : num) : num :=
  match isna x, isna other with
  | true, true => NaN
  | true, false => num_add fill_value other
  | false, true => num_add x fill_value
  | false, false => num_add x other
  end.

(** Lines 130-134 on one row. *)
Definition derive (r : balance_row) : balance_row :=
  let options_capital := num_add (b_calls_capital r) (b_puts_capital r) in
  let stocks_capital := py_sum (b_stocks r) in
  {| b_date := b_date r;
     b_total_capital := series_add_fill (b_cash r) stocks_capital options_capital (Fin 0);
     b_cash := b_cash r;
     b_stocks := b_stocks r;
     b_options_qty := b_options_qty r;
     b_calls_capital := b_calls_capital r;
     b_puts_capital := b_puts_capital r;
     b_stocks_qty := b_stocks_qty r;
     b_options_capital := options_capital;
     b_stocks_capital := stocks_capital |}.

(** Lines 96-103: the state at the start of a run. *)
Definition start (c : Init.config) (stocks : list Stock) (strategy : Strategy)
    (m : market) : Backtest :=
  let cash := Fin (Init.initial_capital c) in
  {| allocation := Init.allocation c;
     initial_capital := Init.initial_capital c;
     shares_per_contract := Init.shares_per_contract c;
     _stocks := stocks;
     _options_strategy := strategy;
     current_cash := cash;
     _options_inventory := [];
     _stocks_inventory := [];
     trade_log := [];
     balance := [ {| b_date := (start_date m - 1)%Z;
                     b_total_capital := cash; b_cash := cash;
                     b_stocks := map (fun _ => NaN) stocks;
                     b_options_qty := NaN; b_calls_capital := NaN;
                     b_puts_capital := NaN; b_stocks_qty := NaN;
                     b_options_capital := NaN; b_stocks_capital := NaN |} ] |}.

(** [run] after its assertions; the percentage-change columns of lines
    135-136 are not modelled.  The instance after the run holds the trade log
    that [run] returns and the balance ledger. *)
Definition run (c : Init.config) (stocks : list Stock) (strategy : Strategy)
    (m : market) (data_iterator : list (date * list stock_row * list quote))
    (rebalance_freq : Z) (sma_days : option Z) : result Backtest :=
  let bt := start c stocks strategy m in
  let days := rebalancing_days m rebalance_freq in
  bt ← loop m days sma_days bt data_iterator;
  bt ← _update_balance bt (List.last days (start_date m)) (end_date m)
                       (m_stocks m) (m_options m);
  Ok (set_balance bt (map derive (balance bt))).

(** Equality of numbers up to the representation of a rational. *)
Definition num_eq (x y : num) : Prop :=
  match x, y with
  | Fin a, Fin b => a == b
  | Inf a, Inf b => a = b
  | NaN, NaN => True
  | _, _ => False
  end.

(** ** A small market, used to evaluate the engine *)

Module Demo.

Definition spy (d : date) (price : Q) : stock_row :=
  {| s_date := d; s_symbol := "SPY"; adjClose := price; sma := NaN |}.

Definition call_c1 (d : date) (b a : Q) : quote :=
  {| quotedate := d; optionroot := "C1"; underlying := "SPX"; expiration := 30%Z;
     type := "call"; strike := 100; bid := b; ask := a |}.

Definition call_c2 (d : date) (b a : Q) : quote :=
  {| quotedate := d; optionroot := "C2"; underlying := "SPX"; expiration := 30%Z;
     type := "call"; strike := 110; bid := b; ask := a |}.

Definition is_c1 (q : quote) : bool := String.eqb (optionroot q) "C1".
Definition is_c2 (q : quote) : bool := String.eqb (optionroot q) "C2".

Definition leg (d : Direction) (flt : quote -> bool) : StrategyLeg :=
  {| direction := d; entry_filter := flt; exit_filter := fun _ => false |}.

Definition strategy_of (ls : list StrategyLeg) : Strategy :=
  {| legs := ls; filter_thresholds := fun held _ => map (fun _ => false) held |}.

Definition long_call : Strategy := strategy_of [leg BUY is_c1].
Definition short_call : Strategy := strategy_of [leg SELL is_c1].
Definition vertical : Strategy := strategy_of [leg BUY is_c1; leg SELL is_c2].

Definition half_half : gmap string num :=
  <["stocks" := Fin (1 # 2)]> (<["options" := Fin (1 # 2)]> (<["cash" := Fin 0]> ∅)).

Definition config : Init.config :=
  {| Init.allocation := half_half; Init.initial_capital := 1000;
     Init.stop_if_broke := true; Init.shares_per_contract := 100 |}.

Definition portfolio : list Stock := [ {| symbol := "SPY"; percentage := 1 |} ].

(** Three trading days; the second is a rebalancing day. *)
Definition market_of (opts : list quote) : market :=
  {| m_stocks := [spy 1%Z 10; spy 2%Z 10; spy 3%Z 10];
     m_options := opts;
     start_date := 1%Z; end_date := 3%Z; bms := [2%Z] |}.

(** Modelled from the spec: [datahandler.py] is not under src.
    [iter_dates] yields the rows of each date, in date order. *)
Definition iter_dates (m : market) : list (date * list stock_row * list quote) :=
  map (fun d => (d, List.filter (fun r => (s_date r =? d)%Z) (m_stocks m),
                    List.filter (fun q => (quotedate q =? d)%Z) (m_options m)))
      [1%Z; 2%Z; 3%Z].

(** The held call is quoted on every day. *)
Definition quoted : market :=
  market_of [call_c1 1%Z (19 # 10) 2; call_c1 2%Z (5 # 2) (26 # 10);
             call_c1 3%Z (5 # 2) (26 # 10)].

(** The held call has no quote on the second day. *)
Definition vanished : market :=
  market_of [call_c1 1%Z (19 # 10) 2; call_c2 2%Z 1 1; call_c1 3%Z (5 # 2) (26 # 10)].

(** A call sold at 1 that must be bought back at 5. *)
Definition squeezed : market :=
  market_of [call_c1 1%Z 1 (11 # 10); call_c1 2%Z (49 # 10) 5;
             call_c1 3%Z (49 # 10) 5].

Definition run_on (s : Strategy) (m : market) : result Backtest :=
  run config portfolio s m (iter_dates m) 1%Z None.

(** A state holding two units of the call bought at 2.00. *)
Definition holding_c1 : Backtest :=
  {| allocation := half_half; initial_capital := 1000; shares_per_contract := 100;
     _stocks := portfolio; _options_strategy := long_call;
     current_cash := Fin 100;
     _options_inventory :=
       [ {| c_legs := [ entry_cells 100 (leg BUY is_c1) (call_c1 1%Z (19 # 10) 2) ];
            c_totals := {| t_cost := Fin 200; t_qty := Fin 2; t_date := Some 1%Z |} |} ];
     _stocks_inventory := [ {| h_symbol := "SPY"; h_price := 10; h_qty := Fin 50 |} ];
     trade_log := []; balance := [] |}.

(** The state at the start of a run, before the first rebalance. *)
Definition flat (s : Strategy) : Backtest := start config portfolio s quoted.

(** The items of [iter_dates quoted]. *)
Definition first_day : list (date * list stock_row * list quote) :=
  [ (1%Z, [spy 1%Z 10], [call_c1 1%Z (19 # 10) 2]) ].
Definition second_day : date * list stock_row * list quote :=
  (2%Z, [spy 2%Z 10], [call_c1 2%Z (5 # 2) (26 # 10)]).
Definition third_day : list (date * list stock_row * list quote) :=
  [ (3%Z, [spy 3%Z 10], [call_c1 3%Z (5 # 2) (26 # 10)]) ].

(** The states of the run with the long call after its first and second
    day. *)
Definition after_first_day : Backtest :=
  Eval vm_compute in
    match loop quoted [1%Z; 2%Z] None (flat long_call) first_day with
    | Ok bt => bt
    | Raise _ => flat long_call
    end.

(** The state after the first day, rebalanced on the second day. *)
Definition rebalanced_second_day : Backtest :=
  Eval vm_compute in
    match _rebalance_portfolio after_first_day 2%Z [spy 2%Z 10]
            [call_c1 2%Z (5 # 2) (26 # 10)] None with
    | Ok bt => bt
    | Raise _ => flat long_call
    end.

(** The vertical spread of the scenario: buy at 2.00, sell at 1.20. *)
Definition spread_slice : list quote :=
  [call_c1 1%Z (19 # 10) 2; call_c2 1%Z (12 # 10) (13 # 10)].

(** One BUY leg that accepts every quote. *)
Definition any_call : Strategy := strategy_of [leg BUY (fun _ => true)].

(** A call that can be sold at 3.00. *)
Definition credit_slice : list quote := [call_c1 1%Z 3 (31 # 10)].

End Demo.

(** ** Closed forms used in the proofs *)

(** The quote joined to a contract by a slice that lists each contract
    once. *)
Definition find_quote (k : option string) (options : list quote) : option quote :=
  match k with
  | None => None
  | Some c => head (List.filter (fun q => String.eqb (optionroot q) c) options)
  end.

(** The row of [leg_options] for one inventory row. *)
Definition quote_row (bt : Backtest) (options : list quote) (i : nat)
    (leg : StrategyLeg) (c : combo) : leg_quote :=
  let q := find_quote (l_contract (leg_of i c)) options in
  {| lq_contract := l_contract (leg_of i c);
     lq_quote := q;
     lq_order := get_order (direction leg) EXIT;
     lq_cost := exit_cost (shares_per_contract bt) (direction leg) q |}.

(** The row of the [df] of the imputation for one inventory row. *)
Definition zero_cost_row (bt : Backtest) (c : combo) : frame_row :=
  {| r_legs := imap (fun j cell =>
                       if (j <? length (legs (_options_strategy bt)))%nat
                       then set_cost cell (Fin 0) else cell) (c_legs c);
     r_totals := Some (c_totals c) |}.

(** The row that [_sell_options] logs for one inventory row. *)
Definition closed_row (bt : Backtest) (options : list quote) (d : date) (c : combo)
    : combo :=
  let cells :=
    r_legs (fillna_row
              (no_totals (imap (fun j leg => close_cells (quote_row bt options j leg c))
                               (legs (_options_strategy bt))))
              (fillna_row (to_frame c) (zero_cost_row bt c))) in
  {| c_legs := cells;
     c_totals := {| t_cost := row_cost cells; t_qty := t_qty (c_totals c);
                    t_date := Some d |} |}.

(** The date of an item of the data iterator. *)
Definition entry_date (x : date * list stock_row * list quote) : date := fst (fst x).


(** The quantity of an entry in the spec's words:the floor of the absolute
    value of the target dollars divided by the total cost per unit. *)
Definition claimed_entry_qty (target total_cost : Q) : num :=
  Fin (inject_Z (Qfloor (Qabs target / total_cost))).

(** Two states of one instance: the configuration is the same and the trade
    log and the ledger of the later state extend those of the earlier one. *)
Definition extends (bt bt' : Backtest) : Prop :=
  allocation bt' = allocation bt /\
  initial_capital bt' = initial_capital bt /\
  shares_per_contract bt' = shares_per_contract bt /\
  _stocks bt' = _stocks bt /\
  _options_strategy bt' = _options_strategy bt /\
  (exists log, trade_log bt' = trade_log bt ++ log) /\
  (exists rows, balance bt' = balance bt ++ rows).

(** Whether the slice has a row for a held stock. *)
Definition has_row (stocks : list stock_row) (h : holding) : bool :=
  existsb (fun r => String.eqb (s_symbol r) (h_symbol h)) stocks.

(** ** The [stocks] setter (lines 36-42) *)

(** The outcome of a method that starts with assertions. *)
Inductive checked (A : Type) : Type :=
| Accepted (a : A)
| AssertionError (msg : string).
Arguments Accepted {A} a.
Arguments AssertionError {A} msg.

(** [np.isclose(a, b, rtol, atol)] on two finite numbers:
    [|a - b| <= atol + rtol * |b|]. *)
Definition isclose (a b rtol atol : Q) : bool :=
  Qle_bool (Qabs (a - b)) (atol + rtol * Qabs b).

(** The setter passes [atol=0.000001] and leaves [rtol] at numpy's default
    [1e-05]; the list is stored in the order given. *)
Definition stocks_setter (stocks : list Stock) : checked (list Stock) :=
  if isclose (Init.py_sum (map percentage stocks)) 1 (1 # 100000) (1 # 1000000)
  then Accepted stocks
  else AssertionError "Stock percentages must sum to 1.0".

(** ** [_current_options_capital] (lines 248-267) *)

(** One turn of the loop over the legs: the first row of the left join of the
    leg inventory with the slice, its closing quote with a missing value read
    as 0, times the quantity of the first inventory row and the multiplier;
    added for a leg that closes at the bid, subtracted otherwise.  On an
    empty inventory [iloc[0]] raises [IndexError], which the method catches
    to add 0. *)
Definition leg_capital (bt : Backtest) (options : list quote) (i : nat)
    (leg : StrategyLeg) (total_cost : num) : num :=
  let current_options :=
    left_join (map (fun c => l_contract (leg_of i c)) (_options_inventory bt)) options in
  match current_options, _options_inventory bt with
  | kq :: _, first :: _ =>
      let price := match snd kq with
                   | Some q => Fin (price_at (invert (direction leg)) q)
                   | None => Fin 0
                   end in
      let cost := num_mul (num_mul price (t_qty (c_totals first)))
                          (Fin (shares_per_contract bt)) in
      match invert (direction leg) with
      | SELL => num_add total_cost cost
      | BUY => num_sub total_cost cost
      end
  | _, _ => num_add total_cost (Fin 0)
  end.

Fixpoint capital_from (bt : Backtest) (options : list quote) (i : nat)
    (ls : list StrategyLeg) (total_cost : num) : num :=
  match ls with
  | [] => total_cost
  | leg :: rest =>
      capital_from bt options (S i) rest (leg_capital bt options i leg total_cost)
  end.

Definition _current_options_capital (bt : Backtest) (options : list quote) : num :=
  capital_from bt options 0 (legs (_options_strategy bt)) (Fin 0).

(* ================================================================= *)
(** * Properties *)

(** ** Binary64 rounding *)

Module Binary64Facts.
Import Binary64.

Lemma pow2_pos k : 0 < pow2 k.
Proof. apply Qpower_0_lt. reflexivity. Qed.

Lemma pow2_add a b : pow2 (a + b) == pow2 a * pow2 b.
Proof. apply Qpower_plus. discriminate. Qed.

Lemma pow2_inject k : (0 <= k)%Z -> inject_Z (2 ^ k) == pow2 k.
Proof. intros Hk. unfold pow2. by rewrite Zpower_Qpower. Qed.

Lemma pow2_le a b : (a <= b)%Z -> pow2 a <= pow2 b.
Proof. intros H. apply Qpower_le_compat_l; [exact H | discriminate]. Qed.

Lemma ilog2_lower (a : Q) : 0 < a -> pow2 (ilog2 a) <= a.
Proof.
  intros Ha. unfold ilog2.
  destruct (Qlt_le_dec a _) as [Hlt|Hle]; [|exact Hle].
  destruct a as [n d]. cbn [Qnum Qden] in *.
  assert (Hn : (0 < n)%Z).
  { unfold Qlt in Ha. cbn in Ha. lia. }
  pose proof (Z.log2_spec n Hn) as [Hn1 _].
  pose proof (Z.log2_spec (Z.pos d) (Pos2Z.is_pos d)) as [_ Hd2].
  pose proof (Z.log2_nonneg n) as Hln.
  pose proof (Z.log2_nonneg (Z.pos d)) as Hld.
  set (ln := Z.log2 n) in *. set (ld := Z.log2 (Z.pos d)) in *.
  replace (ln - ld - 1)%Z with (ln + - (ld + 1))%Z by lia.
  rewrite pow2_add. unfold pow2 at 2. rewrite Qpower_opp.
  fold (pow2 (ld + 1)).
  rewrite <- (pow2_inject ln), <- (pow2_inject (ld + 1)) by lia.
  rewrite (Qmake_Qdiv n d).
  replace (Z.succ ld) with (ld + 1)%Z in Hd2 by lia.
  assert (H1 : inject_Z (2 ^ ln) <= inject_Z n) by (rewrite <- Zle_Qle; exact Hn1).
  assert (H2 : inject_Z (Z.pos d) <= inject_Z (2 ^ (ld + 1)))
    by (rewrite <- Zle_Qle; lia).
  assert (H3 : 0 < inject_Z (Z.pos d)) by (rewrite <- (Zlt_Qlt 0); lia).
  assert (H4 : 0 < inject_Z (2 ^ (ld + 1))) by lra.
  assert (H5 : 0 <= inject_Z (2 ^ ln)).
  { rewrite <- (Zle_Qle 0). apply Z.pow_nonneg. lia. }
  apply Qle_shift_div_l; [exact H3|].
  unfold Qdiv. rewrite <- Qmult_assoc, (Qmult_comm (/ _)), Qmult_assoc.
  apply Qle_shift_div_r; [exact H4|].
  apply Qmult_le_compat_nonneg; lra.
Qed.

Lemma rne_error (x : Q) : Qabs (inject_Z (rne x) - x) <= 1 # 2.
Proof.
  unfold rne. pose proof (Qfloor_le x) as Hl. pose proof (Qlt_floor x) as Hu.
  rewrite inject_Z_plus in Hu. change (inject_Z 1) with 1 in Hu.
  apply Qabs_Qle_condition.
  destruct (Qcompare_spec (x - inject_Z (Qfloor x)) (1 # 2)) as [E|E|E].
  - destruct (Z.even (Qfloor x)); [|rewrite inject_Z_plus; change (inject_Z 1) with 1];
      split; lra.
  - split; lra.
  - rewrite inject_Z_plus. change (inject_Z 1) with 1. split; lra.
Qed.

Lemma rne_integer (x : Q) (z : Z) : x == inject_Z z -> rne x = z.
Proof.
  intros E. unfold rne.
  assert (Hf : Qfloor x = z) by (rewrite E; apply Qfloor_Z).
  rewrite Hf.
  destruct (Qcompare_spec (x - inject_Z z) (1 # 2)) as [H|H|H]; [lra | reflexivity | lra].
Qed.

Lemma rne_nonneg (x : Q) : 0 <= x -> (0 <= rne x)%Z.
Proof.
  intros Hx. unfold rne.
  assert (Hf : (0 <= Qfloor x)%Z).
  { change 0%Z with (Qfloor 0). by apply Qfloor_resp_le. }
  destruct (Qcompare _ _); [destruct (Z.even _) | |]; lia.
Qed.


Lemma ulp_exp_cases (a : Q) :
  0 < a ->
  (-1074 <= ulp_exp a)%Z /\
  (pow2 (ulp_exp a) <= a * pow2 (-52) \/ ulp_exp a = (-1074)%Z).
Proof.
  intros Ha. unfold ulp_exp. split; [lia|].
  destruct (Z.max_spec (ilog2 a - 52) (-1074)) as [[_ ->]|[_ ->]]; [by right|left].
  replace (ilog2 a - 52)%Z with (ilog2 a + -52)%Z by lia.
  rewrite pow2_add. apply Qmult_le_compat_r; [by apply ilog2_lower|].
  apply Qlt_le_weak, pow2_pos.
Qed.

Lemma nearest_error (a : Q) :
  Qabs (nearest a - a) <= pow2 (ulp_exp a) * (1 # 2).
Proof.
  unfold nearest. set (p := pow2 (ulp_exp a)).
  assert (Hp : 0 < p) by apply pow2_pos.
  assert (E : inject_Z (rne (a / p)) * p - a == (inject_Z (rne (a / p)) - a / p) * p).
  { field. lra. }
  rewrite E, Qabs_Qmult, (Qabs_pos p), (Qmult_comm p) by lra.
  apply Qmult_le_compat_r; [apply rne_error | lra].
Qed.

Lemma nearest_nonneg (a : Q) : 0 <= a -> 0 <= nearest a.
Proof.
  intros Ha. unfold nearest. pose proof (pow2_pos (ulp_exp a)) as Hp.
  apply Qmult_le_0_compat; [|lra].
  rewrite <- (Zle_Qle 0). apply rne_nonneg.
  apply Qle_shift_div_l; lra.
Qed.

Lemma nearest_on_grid (a : Q) : 0 < a -> on_grid (nearest a).
Proof.
  intros Ha. destruct (ulp_exp_cases a Ha) as [Hge _].
  exists (rne (a / pow2 (ulp_exp a)) * 2 ^ (ulp_exp a + 1074))%Z.
  unfold nearest. rewrite inject_Z_mult, pow2_inject by lia.
  rewrite <- Qmult_assoc, <- pow2_add.
  by replace (ulp_exp a + 1074 + -1074)%Z with (ulp_exp a) by lia.
Qed.

Lemma nearest_grid_exact (a : Q) :
  on_grid a -> ulp_exp a = (-1074)%Z -> nearest a == a.
Proof.
  intros [z Hz] Hp. unfold nearest. rewrite Hp.
  pose proof (pow2_pos (-1074)) as Hpos.
  rewrite (rne_integer _ z).
  - by rewrite Hz.
  - rewrite Hz. field. lra.
Qed.

Lemma half_ulp (k : Z) : pow2 k * (1 # 2) == pow2 (k + -1).
Proof. rewrite pow2_add. reflexivity. Qed.

Lemma nearest_relative (a : Q) :
  0 < a ->
  Qabs (nearest a - a) <= a * u + eta /\
  (on_grid a -> Qabs (nearest a - a) <= a * u).
Proof.
  intros Ha. pose proof (nearest_error a) as He.
  destruct (ulp_exp_cases a Ha) as [_ [Hrel|Hsub]].
  - assert (Hb : pow2 (ulp_exp a) * (1 # 2) <= a * u).
    { unfold u. replace (-53)%Z with (-52 + -1)%Z by lia.
      rewrite pow2_add, Qmult_assoc.
      apply Qmult_le_compat_r; [exact Hrel|]. apply Qlt_le_weak, pow2_pos. }
    pose proof (pow2_pos (-1075)). unfold eta. split; [lra | intros _; lra].
  - split.
    + rewrite Hsub, half_ulp in He. change (-1074 + -1)%Z with (-1075)%Z in He.
      fold eta in He. assert (0 <= a * u); [|lra].
      apply Qmult_le_0_compat; [lra|]. apply Qlt_le_weak, pow2_pos.
    + intros Hg. rewrite (nearest_grid_exact a Hg Hsub).
      assert (E : a - a == 0) by ring. rewrite E. change (Qabs 0) with 0.
      apply Qmult_le_0_compat; [lra|]. apply Qlt_le_weak, pow2_pos.
Qed.

Lemma on_grid_0 : on_grid 0.
Proof. exists 0%Z. ring. Qed.

Lemma on_grid_plus a b : on_grid a -> on_grid b -> on_grid (a + b).
Proof.
  intros [x Hx] [y Hy]. exists (x + y)%Z. rewrite inject_Z_plus, Hx, Hy. ring.
Qed.

#[global] Instance on_grid_proper : Proper (Qeq ==> iff) on_grid.
Proof. intros a b E. unfold on_grid. by setoid_rewrite E. Qed.

(** What [round] returns on a non-negative value when it is finite. *)
Lemma round_nonneg (q r : Q) :
  0 <= q -> round q = Fin r ->
  0 <= r /\ on_grid r /\
  Qabs (r - q) <= q * u + eta /\
  (on_grid q -> Qabs (r - q) <= q * u).
Proof.
  intros Hq. unfold round.
  destruct (Qeq_bool q 0) eqn:E0.
  - apply Qeq_bool_iff in E0. intros [= <-].
    assert (E : 0 - q == 0) by (rewrite E0; ring). rewrite E, E0.
    pose proof (pow2_pos (-1075)). unfold eta.
    split; [lra|]. split; [apply on_grid_0|]. change (Qabs 0) with 0.
    assert (Hu : 0 < u) by apply pow2_pos.
    split; [lra | intros _; lra].
  - assert (Hpos : 0 < q).
    { destruct (Qlt_le_dec 0 q) as [H|H]; [exact H|].
      assert (H0 : q == 0) by lra. apply Qeq_bool_iff in H0. congruence. }
    assert (Hn : Qneg_b q = false).
    { unfold Qneg_b. destruct (Qlt_le_dec q 0); [lra | reflexivity]. }
    rewrite Hn. destruct (Qle_bool _ _); [discriminate|]. intros [= <-].
    assert (Ea : Qabs q == q) by (apply Qabs_pos; lra).
    assert (Hap : 0 < Qabs q) by lra.
    destruct (nearest_relative (Qabs q) Hap) as [H1 H2].
    split; [apply nearest_nonneg; lra|].
    split; [by apply nearest_on_grid|].
    rewrite Ea in H1 at 2 3. split; [exact H1|].
    intros Hg. rewrite <- Ea in Hg. specialize (H2 Hg).
    by rewrite Ea in H2 at 2 3.
Qed.

(** Values up to [2^1023] do not overflow. *)
Lemma round_finite (q : Q) :
  0 <= q -> q <= pow2 1023 -> exists r, round q = Fin r.
Proof.
  intros Hq Hle. unfold round.
  destruct (Qeq_bool q 0) eqn:E0; [by eexists|].
  assert (Hpos : 0 < q).
  { destruct (Qlt_le_dec 0 q) as [H|H]; [exact H|].
    assert (H0 : q == 0) by lra. apply Qeq_bool_iff in H0. congruence. }
  assert (Ea : Qabs q == q) by (apply Qabs_pos; lra).
  assert (Hap : 0 < Qabs q) by lra.
  destruct (nearest_relative (Qabs q) Hap) as [H1 _].
  destruct (Qle_bool _ _) eqn:Hb; [|by eexists].
  exfalso. apply Qle_bool_iff in Hb.
  apply Qabs_Qle_condition in H1 as [_ H1]. rewrite Ea in H1 at 2 3.
  assert (Hu : q * u <= pow2 1023 * u).
  { apply Qmult_le_compat_r; [exact Hle|]. apply Qlt_le_weak, pow2_pos. }
  assert (Hc : pow2 1023 + pow2 1023 * u + eta < pow2 1024) by reflexivity.
  lra.
Qed.

Lemma ilog2_upper (a : Q) : 0 < a -> a < pow2 (ilog2 a + 1).
Proof.
  intros Ha. unfold ilog2.
  destruct (Qlt_le_dec a _) as [Hlt|Hle].
  { by replace (Z.log2 (Qnum a) - Z.log2 (Z.pos (Qden a)) - 1 + 1)%Z
      with (Z.log2 (Qnum a) - Z.log2 (Z.pos (Qden a)))%Z by lia. }
  destruct a as [n d]. cbn [Qnum Qden] in *.
  assert (Hn : (0 < n)%Z).
  { unfold Qlt in Ha. cbn in Ha. lia. }
  pose proof (Z.log2_spec n Hn) as [_ Hn2].
  pose proof (Z.log2_spec (Z.pos d) (Pos2Z.is_pos d)) as [Hd1 _].
  pose proof (Z.log2_nonneg n) as Hln.
  pose proof (Z.log2_nonneg (Z.pos d)) as Hld.
  set (ln := Z.log2 n) in *. set (ld := Z.log2 (Z.pos d)) in *.
  replace (ln - ld + 1)%Z with ((ln + 1) + - ld)%Z by lia.
  rewrite pow2_add. unfold pow2 at 2. rewrite Qpower_opp. fold (pow2 ld).
  rewrite <- (pow2_inject (ln + 1)), <- (pow2_inject ld) by lia.
  rewrite (Qmake_Qdiv n d).
  replace (Z.succ ln) with (ln + 1)%Z in Hn2 by lia.
  assert (H1 : inject_Z n < inject_Z (2 ^ (ln + 1))) by (rewrite <- Zlt_Qlt; exact Hn2).
  assert (H2 : inject_Z (2 ^ ld) <= inject_Z (Z.pos d)) by (rewrite <- Zle_Qle; exact Hd1).
  assert (H3 : 0 < inject_Z (2 ^ ld)).
  { rewrite <- (Zlt_Qlt 0). apply Z.pow_pos_nonneg; lia. }
  assert (H4 : 0 < inject_Z (Z.pos d)) by lra.
  assert (H5 : 0 < inject_Z n) by (rewrite <- (Zlt_Qlt 0); exact Hn).
  apply Qlt_shift_div_r; [exact H4|].
  unfold Qdiv. rewrite <- Qmult_assoc, (Qmult_comm (/ _)), Qmult_assoc.
  apply Qlt_shift_div_l; [exact H3|].
  apply Qlt_le_trans with (inject_Z (2 ^ (ln + 1)) * inject_Z (2 ^ ld)).
  - apply Qmult_lt_compat_r; lra.
  - apply Qmult_le_l; [lra | exact H2].
Qed.

(** [ilog2 a] is the floor of the binary logarithm of [a]. *)
Lemma ilog2_unique (a : Q) (k : Z) :
  pow2 k <= a -> a < pow2 (k + 1) -> 0 < a -> ilog2 a = k.
Proof.
  intros Hl Hu Ha.
  pose proof (ilog2_lower a Ha) as Hl'. pose proof (ilog2_upper a Ha) as Hu'.
  assert (H1 : (k < ilog2 a + 1)%Z).
  { apply (Qpower_lt_compat_l_inv 2); [|reflexivity]. fold (pow2 k) (pow2 (ilog2 a + 1)). lra. }
  assert (H2 : (ilog2 a < k + 1)%Z).
  { apply (Qpower_lt_compat_l_inv 2); [|reflexivity]. fold (pow2 (ilog2 a)) (pow2 (k + 1)). lra. }
  lia.
Qed.

Lemma ilog2_comp (a b : Q) : 0 < a -> a == b -> ilog2 a = ilog2 b.
Proof.
  intros Ha E. assert (Hb : 0 < b) by (by rewrite <- E).
  symmetry. apply ilog2_unique; [| |exact Hb]; rewrite <- E.
  - by apply ilog2_lower.
  - by apply ilog2_upper.
Qed.

Lemma rne_comp (x y : Q) : x == y -> rne x = rne y.
Proof.
  intros E. unfold rne. rewrite <- (Qfloor_comp _ _ E).
  assert (E' : x - inject_Z (Qfloor x) == y - inject_Z (Qfloor x)) by lra.
  by rewrite (Qcompare_comp _ _ E' (1 # 2) (1 # 2) (Qeq_refl _)).
Qed.

Lemma nearest_comp (a b : Q) : 0 < a -> a == b -> nearest a == nearest b.
Proof.
  intros Ha E. unfold nearest, ulp_exp. rewrite <- (ilog2_comp a b Ha E).
  set (p := pow2 _). rewrite (rne_comp (a / p) (b / p)); [reflexivity|].
  by rewrite E.
Qed.

Lemma Qneg_b_comp (a b : Q) : a == b -> Qneg_b a = Qneg_b b.
Proof.
  intros E. unfold Qneg_b.
  destruct (Qlt_le_dec a 0), (Qlt_le_dec b 0); try reflexivity; lra.
Qed.

Lemma round_comp (a b : Q) : a == b -> num_eq (round a) (round b).
Proof.
  intros E. unfold round. rewrite <- (Qeqb_comp _ _ E 0 0 (Qeq_refl 0)).
  destruct (Qeq_bool a 0) eqn:E0; [reflexivity|].
  apply Qeq_bool_neq in E0.
  assert (Hpos : 0 < Qabs a).
  { pose proof (Qabs_nonneg a). destruct (Qlt_le_dec 0 (Qabs a)) as [H1|H1]; [done|].
    exfalso. apply E0. apply Qabs_Qle_condition in H1. lra. }
  assert (En : nearest (Qabs a) == nearest (Qabs b)).
  { apply nearest_comp; [exact Hpos | by rewrite E]. }
  rewrite <- (Qleb_comp _ _ (Qeq_refl (pow2 1024)) _ _ En).
  rewrite <- (Qneg_b_comp a b E).
  destruct (Qle_bool _ _); [reflexivity|].
  destruct (Qneg_b a); cbn [num_eq]; by rewrite En.
Qed.

(** Rounding is odd. *)
Lemma round_opp (q r : Q) : round q = Fin r -> num_eq (round (- q)) (Fin (- r)).
Proof.
  unfold round.
  assert (Ez : Qeq_bool (- q) 0 = Qeq_bool q 0).
  { destruct (Qeq_bool q 0) eqn:E0.
    - apply Qeq_bool_iff in E0. apply Qeq_bool_iff. lra.
    - apply Qeq_bool_neq in E0. destruct (Qeq_bool (- q) 0) eqn:E1; [|done].
      apply Qeq_bool_iff in E1. exfalso. apply E0. lra. }
  rewrite Ez. destruct (Qeq_bool q 0) eqn:E0.
  { intros [= <-]. cbn. reflexivity. }
  apply Qeq_bool_neq in E0.
  assert (Hpos : 0 < Qabs q).
  { pose proof (Qabs_nonneg q). destruct (Qlt_le_dec 0 (Qabs q)) as [H1|H1]; [done|].
    exfalso. apply E0. apply Qabs_Qle_condition in H1. lra. }
  assert (En : nearest (Qabs (- q)) == nearest (Qabs q)).
  { assert (Ea : Qabs (- q) == Qabs q) by apply Qabs_opp.
    apply nearest_comp; [by rewrite Ea | exact Ea]. }
  rewrite (Qleb_comp _ _ (Qeq_refl (pow2 1024)) _ _ En).
  destruct (Qle_bool _ _); [discriminate|].
  assert (Es : Qneg_b (- q) = negb (Qneg_b q)).
  { unfold Qneg_b. destruct (Qlt_le_dec (- q) 0), (Qlt_le_dec q 0); try reflexivity.
    - lra.
    - exfalso. apply E0. lra. }
  rewrite Es. intros [= <-]. cbn [num_eq].
  destruct (Qneg_b q); cbn [negb]; rewrite En; ring.
Qed.

Lemma is_float_round (a v : Q) :
  is_float v -> a == v -> exists r, round a = Fin r /\ r == v.
Proof.
  intros (r & Hr & E) Ea. pose proof (round_comp a v Ea) as H. rewrite Hr in H.
  destruct (round a) as [r'| |] eqn:Er; cbn [num_eq] in H; try contradiction.
  exists r'. split; [reflexivity|]. by rewrite H.
Qed.

Lemma is_float_opp (v : Q) : is_float v -> is_float (- v).
Proof.
  intros (r & Hr & E). pose proof (round_opp v r Hr) as H.
  destruct (round (- v)) as [r'| |] eqn:Er; cbn [num_eq] in H; try contradiction.
  exists r'. split; [exact Er|]. rewrite H. by rewrite E.
Qed.

End Binary64Facts.

(** ** Constructor *)

Module InitFacts.
Import Binary64 Binary64Facts Init.

Lemma u_value : u == 1 # 9007199254740992.
Proof. reflexivity. Qed.

Lemma eta_small : 0 < eta /\ eta <= 1 # 1000000000000.
Proof. split; [apply pow2_pos | apply Qle_bool_imp_le; vm_compute; reflexivity]. Qed.

Lemma is_float_on_grid (v : Q) : 0 <= v -> is_float v -> on_grid v.
Proof.
  intros Hv (r & Hr & E).
  assert (Hq : 0 <= v) by exact Hv.
  destruct (round_nonneg v r Hq Hr) as (_ & Hg & _). by rewrite <- E.
Qed.

(** One float addition of non-negative values. *)
Lemma add_nonneg (a b r : Q) :
  0 <= a -> 0 <= b -> on_grid a -> on_grid b ->
  add (Fin a) (Fin b) = Fin r ->
  0 <= r /\ on_grid r /\ Qabs (r - (a + b)) <= (a + b) * (1 # 9007199254740992).
Proof.
  intros Ha Hb Ga Gb Hr. cbn [add] in Hr.
  assert (Hq : 0 <= a + b) by lra.
  destruct (round_nonneg (a + b) r Hq Hr) as (H0 & Hg & _ & Hrel).
  split; [exact H0|]. split; [exact Hg|].
  rewrite <- u_value. apply Hrel. by apply on_grid_plus.
Qed.

Lemma add_not_finite (x : num) (b : Q) :
  (forall r, x <> Fin r) -> forall r, add x (Fin b) <> Fin r.
Proof. intros Hx r. destruct x as [q| |]; [by destruct (Hx q) | done | done]. Qed.

(** The float total of three non-negative floats is within four units
    roundoff of their sum. *)
Lemma total_error (v1 v2 v3 t : Q) :
  0 <= v1 -> 0 <= v2 -> 0 <= v3 -> on_grid v1 -> on_grid v2 -> on_grid v3 ->
  float_sum [Fin v1; Fin v2; Fin v3] = Fin t ->
  0 <= t /\
  Qabs (t - (v1 + v2 + v3)) <= (v1 + v2 + v3) * (4 # 9007199254740992).
Proof.
  intros H1 H2 H3 G1 G2 G3. unfold float_sum. cbn [fold_left].
  destruct (add (Fin 0) (Fin v1)) as [r1| |] eqn:E1;
    [|intros Ht; exfalso; revert Ht..].
  - destruct (add (Fin r1) (Fin v2)) as [r2| |] eqn:E2;
      [|intros Ht; exfalso; revert Ht..].
    + intros E3.
      destruct (add_nonneg 0 v1 r1) as (P1 & Q1 & B1); [lra | done | apply on_grid_0 | done..|].
      destruct (add_nonneg r1 v2 r2) as (P2 & Q2 & B2); [done..|].
      destruct (add_nonneg r2 v3 t) as (P3 & Q3 & B3); [done..|].
      split; [exact P3|].
      apply Qabs_Qle_condition in B1 as [B1l B1u].
      apply Qabs_Qle_condition in B2 as [B2l B2u].
      apply Qabs_Qle_condition in B3 as [B3l B3u].
      apply Qabs_Qle_condition. split; lra.
    + by apply add_not_finite.
    + by apply add_not_finite.
  - apply add_not_finite. by apply add_not_finite.
  - apply add_not_finite. by apply add_not_finite.
Qed.

(** One float quotient by the total. *)
Lemma fraction_error (v t : Q) :
  0 <= v -> 0 < t -> v / t <= 2 ->
  exists f,
    round (v / t) = Fin f /\ 0 <= f /\ on_grid f /\
    Qabs (f - v / t) <= (v / t) * (1 # 9007199254740992) + (1 # 1000000000000).
Proof.
  intros Hv Ht Hle.
  assert (Hq : 0 <= v / t) by (apply Qle_shift_div_l; lra).
  destruct (round_finite (v / t) Hq) as [f Hf].
  { assert (2 <= pow2 1023) by (apply Qle_bool_imp_le; vm_compute; reflexivity). lra. }
  exists f. split; [exact Hf|].
  destruct (round_nonneg (v / t) f Hq Hf) as (H0 & Hg & Hb & _).
  split; [exact H0|]. split; [exact Hg|].
  rewrite u_value in Hb. destruct eta_small as [_ He]. lra.
Qed.


Lemma float_sum_finite (f1 f2 f3 : Q) :
  0 <= f1 -> 0 <= f2 -> 0 <= f3 -> on_grid f1 -> on_grid f2 -> on_grid f3 ->
  f1 + f2 + f3 <= 4 ->
  exists s, float_sum [Fin f1; Fin f2; Fin f3] = Fin s.
Proof.
  intros H1 H2 H3 G1 G2 G3 Hle. unfold float_sum. cbn [fold_left].
  assert (Hbig : 16 <= pow2 1023) by (apply Qle_bool_imp_le; vm_compute; reflexivity).
  destruct (round_finite (0 + f1)) as [r1 E1]; [lra | lra |].
  destruct (add_nonneg 0 f1 r1) as (P1 & Q1 & B1);
    [lra | done | apply on_grid_0 | done | exact E1 |].
  apply Qabs_Qle_condition in B1 as [B1l B1u].
  cbn [add]. rewrite E1. cbn [add].
  destruct (round_finite (r1 + f2)) as [r2 E2]; [lra | lra |].
  destruct (add_nonneg r1 f2 r2) as (P2 & Q2 & B2); [done..|].
  apply Qabs_Qle_condition in B2 as [B2l B2u].
  rewrite E2. cbn [add].
  destruct (round_finite (r2 + f3)) as [r3 E3]; [lra | lra |].
  rewrite E3. by eexists.
Qed.

Lemma init_inv alloc capital spc c :
  __init__ alloc capital spc = Ok c ->
  is_zero (total_allocation alloc) = false /\
  forall a, a ∈ assets ->
    allocation c !! a
    = Some (div (dict_get alloc a (Fin 0)) (total_allocation alloc)).
Proof.
  unfold __init__, assets, normalize, py_div.
  destruct (is_zero (total_allocation alloc)) eqn:E;
    cbv [mbind result_bind]; [discriminate|].
  intros [= <-]. split; [done|]. cbn [allocation].
  intros a Ha. unfold assets in Ha.
  repeat (apply elem_of_cons in Ha as [-> | Ha]);
    [by simplify_map_eq .. | by apply elem_of_nil in Ha].
Qed.

(** C9. For an allocation dict whose values for stocks, options and cash
    are non-negative floats and whose float total is finite, an accepted
    dict stores for each asset the float quotient of its value by the float
    total, and the three stored fractions sum to 1 within 1e-6, both as an
    exact sum and as the float sum [sum] computes. *)
Theorem allocation_normalized alloc capital spc c (v1 v2 v3 t : Q) :
  dict_get alloc "stocks" (Fin 0) = Fin v1 ->
  dict_get alloc "options" (Fin 0) = Fin v2 ->
  dict_get alloc "cash" (Fin 0) = Fin v3 ->
  (0 <= v1 /\ is_float v1) -> (0 <= v2 /\ is_float v2) -> (0 <= v3 /\ is_float v3) ->
  total_allocation alloc = Fin t ->
  __init__ alloc capital spc = Ok c ->
  exists f1 f2 f3 s : Q,
    (allocation c !! "stocks"%string = Some (Fin f1) /\ round (v1 / t) = Fin f1) /\
    (allocation c !! "options"%string = Some (Fin f2) /\ round (v2 / t) = Fin f2) /\
    (allocation c !! "cash"%string = Some (Fin f3) /\ round (v3 / t) = Fin f3) /\
    Qabs (f1 + f2 + f3 - 1) <= 1 # 1000000 /\
    fractions_sum c = Fin s /\
    Qabs (s - 1) <= 1 # 1000000.
Proof.
  intros E1 E2 E3 [P1 F1] [P2 F2] [P3 F3] Et Hc.
  apply init_inv in Hc as [Hz Hc]. rewrite Et in Hz, Hc. cbn [is_zero] in Hz.
  assert (Ht : total_allocation alloc = float_sum [Fin v1; Fin v2; Fin v3]).
  { unfold total_allocation, assets. cbn [map]. by rewrite E1, E2, E3. }
  rewrite Ht in Et.
  destruct (total_error v1 v2 v3 t) as [Ht0 Hterr];
    [done | done | done | by apply is_float_on_grid ..| exact Et |].
  apply Qabs_Qle_condition in Hterr as [Hl Hu].
  assert (Htne : ~ t == 0).
  { intros E. apply Qeq_bool_iff in E. congruence. }
  assert (Htpos : 0 < t) by lra.
  set (x1 := v1 / t). set (x2 := v2 / t). set (x3 := v3 / t).
  assert (X1 : 0 <= x1) by (apply Qle_shift_div_l; lra).
  assert (X2 : 0 <= x2) by (apply Qle_shift_div_l; lra).
  assert (X3 : 0 <= x3) by (apply Qle_shift_div_l; lra).
  assert (EX : x1 + x2 + x3 == (v1 + v2 + v3) / t) by (unfold x1, x2, x3; field; exact Htne).
  assert (XU : x1 + x2 + x3 <= 1 + (5 # 9007199254740992)).
  { rewrite EX. apply Qle_shift_div_r; lra. }
  assert (XL : 1 - (4 # 9007199254740992) <= x1 + x2 + x3).
  { rewrite EX. apply Qle_shift_div_l; lra. }
  destruct (fraction_error v1 t) as (f1 & R1 & N1 & G1 & B1); [done | done | fold x1; lra |].
  destruct (fraction_error v2 t) as (f2 & R2 & N2 & G2 & B2); [done | done | fold x2; lra |].
  destruct (fraction_error v3 t) as (f3 & R3 & N3 & G3 & B3); [done | done | fold x3; lra |].
  fold x1 in B1. fold x2 in B2. fold x3 in B3.
  apply Qabs_Qle_condition in B1 as [B1l B1u].
  apply Qabs_Qle_condition in B2 as [B2l B2u].
  apply Qabs_Qle_condition in B3 as [B3l B3u].
  assert (A1 : allocation c !! "stocks"%string = Some (Fin f1)).
  { rewrite (Hc "stocks"%string), E1 by (unfold assets; set_solver). cbn [div]. by rewrite R1. }
  assert (A2 : allocation c !! "options"%string = Some (Fin f2)).
  { rewrite (Hc "options"%string), E2 by (unfold assets; set_solver). cbn [div]. by rewrite R2. }
  assert (A3 : allocation c !! "cash"%string = Some (Fin f3)).
  { rewrite (Hc "cash"%string), E3 by (unfold assets; set_solver). cbn [div]. by rewrite R3. }
  destruct (float_sum_finite f1 f2 f3) as [s Hs]; [done .. | lra |].
  destruct (total_error f1 f2 f3 s) as [_ Hserr]; [done ..|].
  apply Qabs_Qle_condition in Hserr as [Hsl Hsu].
  exists f1, f2, f3, s.
  split; [by split|]. split; [by split|]. split; [by split|].
  split; [apply Qabs_Qle_condition; split; lra|].
  split.
  - unfold fractions_sum, assets, dict_get. cbn [map]. by rewrite A1, A2, A3.
  - apply Qabs_Qle_condition; split; lra.
Qed.


Lemma allocation_normalized_witness :
  exists c, exists f1 f2 f3 s : Q,
    __init__ alloc_fractions 1000000 100 = Ok c /\
    allocation c !! "stocks"%string = Some (Fin f1) /\
    allocation c !! "options"%string = Some (Fin f2) /\
    allocation c !! "cash"%string = Some (Fin f3) /\
    Qabs (f1 + f2 + f3 - 1) <= 1 # 1000000 /\
    fractions_sum c = Fin s /\
    Qabs (s - 1) <= 1 # 1000000.
Proof.
  assert (Hc : exists c, __init__ alloc_fractions 1000000 100 = Ok c)
    by (eexists; vm_compute; reflexivity).
  destruct Hc as [c Hc].
  edestruct (allocation_normalized alloc_fractions 1000000 100 c
               float_06 float_03 float_01)
    as (f1 & f2 & f3 & s & [A1 _] & [A2 _] & [A3 _] & Hsum & Hs & Hfs).
  - reflexivity.
  - reflexivity.
  - reflexivity.
  - split; [discriminate|]. eexists. split; [vm_compute; reflexivity | reflexivity].
  - split; [discriminate|]. eexists. split; [vm_compute; reflexivity | reflexivity].
  - split; [discriminate|]. eexists. split; [vm_compute; reflexivity | reflexivity].
  - vm_compute. reflexivity.
  - exact Hc.
  - exists c, f1, f2, f3, s.
    exact (conj Hc (conj A1 (conj A2 (conj A3 (conj Hsum (conj Hs Hfs)))))).
Defined.

(** The dict [{stocks: 1e308, options: 1e308, cash: 0.0}] holds
    non-negative floats and is accepted, but its total overflows to
    infinity: the three stored fractions are 0.0 and their sum is 0, not 1. *)
Lemma overflowing_total_fractions :
  exists c,
    (is_float float_1e308 /\ 0 <= float_1e308) /\
    total_allocation alloc_huge = Inf false /\
    __init__ alloc_huge 1000000 100 = Ok c /\
    allocation c !! "stocks"%string = Some (Fin 0) /\
    allocation c !! "options"%string = Some (Fin 0) /\
    allocation c !! "cash"%string = Some (Fin 0) /\
    fractions_sum c = Fin 0 /\
    ~ Qabs (0 + 0 + 0 - 1) <= 1 # 1000000.
Proof.
  eexists. split.
  { split; [|discriminate]. eexists. split; [vm_compute; reflexivity | reflexivity]. }
  split; [vm_compute; reflexivity|].
  split; [vm_compute; reflexivity|].
  repeat (split; [vm_compute; reflexivity|]).
  intros H. vm_compute in H. by apply H.
Qed.

(** Without overflow, but with values of both signs, the total can lose
    the low bits of the exact sum: on the floats 9595568737543470, 15 and
    -9595568737543464 the float total is 20 where the exact sum is 21, and
    the stored fractions sum to 1.0625, exactly and as floats. *)
Lemma mixed_sign_fractions :
  exists c, exists f1 f2 f3 : Q,
    (is_float 9595568737543470 /\ is_float 15 /\ is_float (- 9595568737543464)) /\
    num_eq (total_allocation alloc_mixed) (Fin 20) /\
    __init__ alloc_mixed 1000000 100 = Ok c /\
    allocation c !! "stocks"%string = Some (Fin f1) /\
    allocation c !! "options"%string = Some (Fin f2) /\
    allocation c !! "cash"%string = Some (Fin f3) /\
    (f1 + f2 + f3 == 17 # 16)%Q /\
    num_eq (fractions_sum c) (Fin (17 # 16)).
Proof.
  eexists. eexists. eexists. eexists.
  split.
  { repeat split; (eexists; split; [vm_compute; reflexivity | reflexivity]). }
  split; [vm_compute; reflexivity|].
  split; [vm_compute; reflexivity|].
  split; [vm_compute; reflexivity|].
  split; [vm_compute; reflexivity|].
  split; [vm_compute; reflexivity|].
  split; vm_compute; reflexivity.
Qed.

(** Floats whose exact sum is zero have a zero float total. *)
Lemma zero_sum_zero_total alloc (v1 v2 v3 : Q) :
  dict_get alloc "stocks" (Fin 0) = Fin v1 ->
  dict_get alloc "options" (Fin 0) = Fin v2 ->
  dict_get alloc "cash" (Fin 0) = Fin v3 ->
  is_float v1 -> is_float v2 -> is_float v3 ->
  v1 + v2 + v3 == 0 ->
  num_eq (total_allocation alloc) (Fin 0).
Proof.
  intros E1 E2 E3 F1 F2 F3 Hz.
  unfold total_allocation, assets, float_sum. cbn [map fold_left].
  rewrite E1, E2, E3. cbn [add].
  destruct (is_float_round (0 + v1) v1 F1) as (r1 & -> & H1); [ring|].
  cbn [add].
  destruct (is_float_round (r1 + v2) (- v3) (is_float_opp v3 F3)) as (r2 & -> & H2);
    [lra|].
  cbn [add]. unfold round.
  assert (E : Qeq_bool (r2 + v3) 0 = true) by (apply Qeq_bool_iff; lra).
  by rewrite E.
Qed.

(** C10. An allocation dict whose values for stocks, options and cash sum
    to zero makes the constructor raise a division-by-zero error, whether
    the sum is the float total the constructor computes or the exact sum of
    float values; the empty dict is such an input. *)
Theorem init_zero_total_raises alloc capital spc :
  (num_eq (total_allocation alloc) (Fin 0) ->
   __init__ alloc capital spc = Raise ZeroDivisionError) /\
  (forall v1 v2 v3 : Q,
     dict_get alloc "stocks" (Fin 0) = Fin v1 ->
     dict_get alloc "options" (Fin 0) = Fin v2 ->
     dict_get alloc "cash" (Fin 0) = Fin v3 ->
     is_float v1 -> is_float v2 -> is_float v3 ->
     v1 + v2 + v3 == 0 ->
     __init__ alloc capital spc = Raise ZeroDivisionError).
Proof.
  assert (H : num_eq (total_allocation alloc) (Fin 0) ->
              __init__ alloc capital spc = Raise ZeroDivisionError).
  { intros Hz. unfold __init__, assets, normalize, py_div.
    destruct (total_allocation alloc) as [t| |]; [|done..].
    cbn [num_eq] in Hz. apply Qeq_bool_iff in Hz. cbn [is_zero]. by rewrite Hz. }
  split; [exact H|]. intros v1 v2 v3 E1 E2 E3 F1 F2 F3 Hz.
  apply H. by apply (zero_sum_zero_total alloc v1 v2 v3).
Qed.

Lemma init_zero_total_raises_witness :
  num_eq (total_allocation ∅) (Fin 0) /\
  __init__ ∅ (1000000 # 1) (100 # 1) = Raise ZeroDivisionError /\
  __init__ alloc_cancel (1000000 # 1) (100 # 1) = Raise ZeroDivisionError.
Proof.
  split; [reflexivity|]. split.
  - apply (proj1 (init_zero_total_raises ∅ _ _)). reflexivity.
  - apply (proj2 (init_zero_total_raises alloc_cancel _ _) (1 # 2) (- (1 # 2)) 0);
      try reflexivity;
      (eexists; split; [vm_compute; reflexivity | reflexivity]).
Defined.

End InitFacts.

(** ** Arithmetic of [num] *)

Lemma Qeq_bool_false_neq (a b : Q) : Qeq_bool a b = false -> ~ a == b.
Proof. intros H E. apply Qeq_bool_iff in E. congruence. Qed.

Lemma Qpos_neq_bool (b : Q) : 0 < b -> Qeq_bool b 0 = false.
Proof.
  intros Hb. destruct (Qeq_bool b 0) eqn:E; [|reflexivity].
  apply Qeq_bool_iff in E. rewrite E in Hb. exfalso. exact (Qlt_irrefl 0 Hb).
Qed.

Lemma floordiv_finite (a b : Q) :
  ~ b == 0 ->
  num_floordiv (Fin a) (Fin b) = Fin (inject_Z (Qfloor (a / b))).
Proof.
  intros Hb. unfold num_floordiv.
  destruct (Qeq_bool b 0) eqn:E; [|reflexivity].
  apply Qeq_bool_iff in E. contradiction.
Qed.

(** The floor of a quotient by a positive divisor never overshoots. *)
Lemma floor_quotient_le (a b : Q) :
  0 < b -> inject_Z (Qfloor (a / b)) * b <= a.
Proof.
  intros Hb.
  assert (E : a == (a / b) * b) by (field; intros E; rewrite E in Hb; exact (Qlt_irrefl 0 Hb)).
  rewrite E at 2.
  apply Qmult_le_compat_r; [apply Qfloor_le | apply Qlt_le_weak, Hb].
Qed.

Lemma floor_quotient_nonneg (a b : Q) :
  0 < b -> 0 <= a -> (0 <= Qfloor (a / b))%Z.
Proof.
  intros Hb Ha.
  change 0%Z with (Qfloor 0). apply Qfloor_resp_le.
  apply Qle_shift_div_l; [exact Hb|]. rewrite Qmult_0_l. exact Ha.
Qed.

(** ** Stock entry *)

Module StockEntryFacts.

Lemma stock_qty_floor sma_days (allocation pct : Q) row :
  0 < adjClose row ->
  stock_qty sma_days (Fin allocation) pct row =
    Fin (inject_Z (Qfloor (allocation * pct / adjClose row))) \/
  stock_qty sma_days (Fin allocation) pct row = Fin 0.
Proof.
  intros Hp. unfold stock_qty. cbn [num_mul].
  rewrite floordiv_finite
    by (intros E; rewrite E in Hp; exact (Qlt_irrefl 0 Hp)).
  destruct (truthy sma_days); [|by left].
  destruct (num_ltb _ _); [by left | by right].
Qed.

Lemma stock_qty_gated sma_days allocation pct row :
  truthy sma_days = true ->
  num_ltb (sma row) (Fin (adjClose row)) = false ->
  stock_qty sma_days allocation pct row = Fin 0.
Proof. intros Hs Hlt. unfold stock_qty. by rewrite Hs, Hlt. Qed.

(** C8 (as amended). When the slice has one row per configured stock, stock
    entry rebuilds the inventory with one row per configured stock; in each
    row whose recorded price is positive and whose allocated dollars
    (stocks target times the stock's percentage) are non-negative the
    quantity is a non-negative integer and quantity times price does not
    exceed the allocated dollars; with an SMA window configured the
    quantity is zero unless the SMA is strictly below the price. *)
Theorem buy_stocks_quantities bt stocks (allocation : Q) sma_days :
  length (List.filter (in_symbols (map symbol (_stocks bt))) stocks)
    = length (_stocks bt) ->
  exists bt',
    _buy_stocks bt stocks (Fin allocation) sma_days = Ok bt' /\
    length (_stocks_inventory bt') = length (_stocks bt) /\
    forall i st h,
      _stocks bt !! i = Some st ->
      _stocks_inventory bt' !! i = Some h ->
      h_symbol h = symbol st /\
      exists row,
        List.filter (in_symbols (map symbol (_stocks bt))) stocks !! i = Some row /\
        h_price h = adjClose row /\
        (0 < h_price h -> 0 <= allocation * percentage st ->
         exists n : Z,
           (0 <= n)%Z /\ h_qty h = Fin (inject_Z n) /\
           inject_Z n * h_price h <= allocation * percentage st) /\
        (truthy sma_days = true ->
         num_ltb (sma row) (Fin (adjClose row)) = false ->
         h_qty h = Fin 0).
Proof.
  intros Hlen. unfold _buy_stocks.
  rewrite Hlen, Nat.eqb_refl. eexists. split; [reflexivity|].
  cbn [set_stocks_inventory _stocks_inventory _stocks].
  split; [rewrite length_zip_with; lia|].
  intros i st h Hst Hh.
  apply lookup_zip_with_Some in Hh as (st' & row & -> & Hst' & Hrow).
  assert (st' = st) as -> by congruence.
  cbn [h_symbol h_price h_qty]. split; [reflexivity|].
  exists row. split; [exact Hrow|]. split; [reflexivity|]. split.
  - intros Hp Ha.
    destruct (stock_qty_floor sma_days allocation (percentage st) row Hp) as [E|E];
      rewrite E.
    + eexists. split; [|split; [reflexivity|]].
      * by apply floor_quotient_nonneg.
      * by apply floor_quotient_le.
    + exists 0%Z. split; [lia|]. split; [reflexivity|].
      rewrite Qmult_0_l. exact Ha.
  - apply stock_qty_gated.
Qed.

Lemma buy_stocks_quantities_witness :
  exists bt',
    _buy_stocks Demo.holding_c1 [Demo.spy 2%Z 10] (Fin 500) None = Ok bt' /\
    length (_stocks_inventory bt') = 1%nat.
Proof.
  destruct (buy_stocks_quantities Demo.holding_c1 [Demo.spy 2%Z 10] 500 None)
    as (bt' & H & Hl & _); [reflexivity|].
  exists bt'. split; [exact H | exact Hl].
Defined.

(** A completed run whose second rebalance enters a negative stock
    quantity: the call sold on day 1 is bought back at a loss on day 2,
    total capital and with it the stocks target become negative, and the
    floor division yields -50 shares. *)
Lemma negative_stock_quantity :
  exists bt h,
    Demo.run_on Demo.short_call Demo.squeezed = Ok bt /\
    In h (_stocks_inventory bt) /\
    ~ (exists n : Z, (0 <= n)%Z /\ num_eq (h_qty h) (Fin (inject_Z n))).
Proof.
  eexists. eexists. split; [vm_compute; reflexivity|].
  split; [left; reflexivity|].
  intros (n & Hn & E). cbn in E. unfold Qeq in E. cbn in E. lia.
Qed.

End StockEntryFacts.

(** ** Option entry *)

Module EntryFacts.

Lemma entry_signals_nonempty spc ls subset es :
  entry_signals_of spc ls subset = Some es ->
  length es = length ls /\ Forall (fun f => f <> []) es.
Proof.
  revert es. induction ls as [|leg ls IH]; intros es; cbn.
  - intros [= <-]. by split.
  - destruct (List.filter (entry_filter leg) subset) as [|q qs]; [discriminate|].
    destruct (entry_signals_of spc ls subset) as [fs|]; [|discriminate].
    intros [= <-]. destruct (IH fs eq_refl) as [Hl Hf].
    split; [cbn; by rewrite Hl|]. constructor; [discriminate | exact Hf].
Qed.

Lemma fold_series_add_head rest : forall x acc,
  Forall (fun s : list num => s <> []) rest ->
  exists r,
    fold_left series_add rest (x :: acc)
    = fold_left num_add (map (fun s => nth 0 s NaN) rest) x :: r.
Proof.
  induction rest as [|s rest IH]; intros x acc Hne; cbn.
  - by eexists.
  - inversion Hne as [|? ? Hs Hrest]; subst.
    destruct s as [|y s]; [done|]. cbn. apply IH, Hrest.
Qed.

(** The first cell of [total_costs] is the sum of the first cost of each
    leg. *)
Lemma sum_series_head ss :
  ss <> [] -> Forall (fun s : list num => s <> []) ss ->
  exists r, sum_series ss = py_sum (map (fun s => nth 0 s NaN) ss) :: r.
Proof.
  destruct ss as [|s ss]; [done|]. intros _ Hne.
  inversion Hne as [|? ? Hs Hrest]; subst.
  destruct s as [|y s]; [done|]. unfold sum_series, py_sum. cbn.
  apply fold_series_add_head, Hrest.
Qed.

Lemma first_costs es :
  map (fun s => nth 0 s NaN) (map (map l_cost) es)
  = map l_cost (map (fun f => nth 0 f nan_cells) es).
Proof.
  rewrite !map_map. apply map_ext. intros f. by destruct f.
Qed.

(** What [_execute_option_entries] does when every leg has a candidate. *)
Lemma entries_enter bt d options alloc es :
  entry_signals_of (shares_per_contract bt) (legs (_options_strategy bt))
    (List.filter (fun q => negb (held (inventory_contracts bt) q)) options) = Some es ->
  legs (_options_strategy bt) <> [] ->
  exists entry,
    c_legs entry = map (fun f => nth 0 f nan_cells) es /\
    t_cost (c_totals entry) = row_cost (c_legs entry) /\
    t_qty (c_totals entry) = entry_qty alloc (t_cost (c_totals entry)) /\
    t_date (c_totals entry) = Some d /\
    _execute_option_entries bt d options alloc
    = Ok (set_cash
            (set_trade_log
               (set_options_inventory bt (_options_inventory bt ++ [entry]))
               (trade_log bt ++ [entry]))
            (num_sub (current_cash bt)
                     (py_sum (sum_series (map (map l_cost) es))))).
Proof.
  intros Hes Hls.
  destruct (entry_signals_nonempty _ _ _ _ Hes) as [Hlen Hne].
  assert (Hes' : es <> []).
  { intros ->. destruct (legs (_options_strategy bt)); [done | discriminate]. }
  destruct (sum_series_head (map (map l_cost) es)) as [r Hr].
  { by destruct es. }
  { apply Forall_map. eapply Forall_impl; [exact Hne|].
    intros f Hf. by destruct f. }
  rewrite first_costs in Hr.
  eexists {| c_legs := map (fun f => nth 0 f nan_cells) es;
             c_totals := {| t_cost := _; t_qty := _; t_date := Some d |} |}.
  cbn [c_legs c_totals t_cost t_qty t_date].
  split; [reflexivity|]. split; [reflexivity|]. split; [reflexivity|].
  split; [reflexivity|].
  unfold _execute_option_entries.
  destruct (legs (_options_strategy bt)) as [|l ls] eqn:El; [done|].
  rewrite Hes. unfold entry_frame. rewrite Hr. reflexivity.
Qed.

Lemma Qabs_inject_nonneg (z : Z) : (0 <= z)%Z -> Qabs (inject_Z z) = inject_Z z.
Proof. intros Hz. unfold Qabs, inject_Z. by rewrite Z.abs_eq. Qed.

(** C3 (as amended). Whenever every leg has a surviving candidate, the
    entered combination is the first row of the candidates, its total cost
    per unit is the sum of its signed, multiplier-scaled leg costs, and its
    quantity is the absolute value of the floor of the options target
    divided by that total cost; for a non-negative target and a positive
    total cost this is the floor of |target| / total cost. *)
Theorem entry_quantity bt d options alloc es :
  entry_signals_of (shares_per_contract bt) (legs (_options_strategy bt))
    (List.filter (fun q => negb (held (inventory_contracts bt) q)) options) = Some es ->
  legs (_options_strategy bt) <> [] ->
  exists bt' entry,
    _execute_option_entries bt d options alloc = Ok bt' /\
    _options_inventory bt' = _options_inventory bt ++ [entry] /\
    c_legs entry = map (fun f => nth 0 f nan_cells) es /\
    t_cost (c_totals entry) = py_sum (map l_cost (c_legs entry)) /\
    t_qty (c_totals entry)
      = num_abs (num_floordiv alloc (t_cost (c_totals entry))) /\
    forall a c : Q,
      alloc = Fin a -> t_cost (c_totals entry) = Fin c -> 0 <= a -> 0 < c ->
      t_qty (c_totals entry) = claimed_entry_qty a c.
Proof.
  intros Hes Hls.
  destruct (entries_enter bt d options alloc es Hes Hls)
    as (entry & Hlegs & Hcost & Hqty & _ & Hrun).
  eexists. exists entry. split; [exact Hrun|].
  split; [reflexivity|]. split; [exact Hlegs|]. split; [exact Hcost|].
  split; [exact Hqty|].
  intros a c -> Hc Ha Hpos. rewrite Hqty, Hc. unfold claimed_entry_qty, entry_qty.
  rewrite floordiv_finite
    by (intros E; rewrite E in Hpos; exact (Qlt_irrefl 0 Hpos)).
  cbn [num_abs]. rewrite Qabs_inject_nonneg by (by apply floor_quotient_nonneg).
  do 2 f_equal. apply Qfloor_comp. by rewrite (Qabs_pos a Ha).
Qed.

(** The scenario of the vertical spread: legs at 2.00 (BUY) and 1.20
    (SELL), multiplier 100, target 10,000: total cost 80, quantity 125. *)
Lemma entry_quantity_witness :
  exists bt' entry,
    _execute_option_entries (Demo.flat Demo.vertical) 1%Z Demo.spread_slice (Fin 10000)
      = Ok bt' /\
    _options_inventory bt' = [entry] /\
    num_eq (t_cost (c_totals entry)) (Fin 80) /\
    num_eq (t_qty (c_totals entry)) (Fin 125).
Proof.
  edestruct (entry_quantity (Demo.flat Demo.vertical) 1%Z Demo.spread_slice (Fin 10000))
    as (bt' & entry & Hrun & Hinv & Hlegs & Hcost & Hqty & _);
    [vm_compute; reflexivity | discriminate |].
  exists bt', entry. split; [exact Hrun|]. split; [exact Hinv|].
  rewrite Hqty, Hcost, Hlegs. split; vm_compute; reflexivity.
Defined.

(** A credit entry: one call sold at 3.00 against a target of 10,000.  The
    total cost per unit is -300 and the entered quantity is 34, which is
    neither floor(|10000| / -300) = -34 nor floor(|10000 / -300|) = 33. *)
Lemma credit_entry_quantity :
  exists bt' entry,
    _execute_option_entries (Demo.flat Demo.short_call) 1%Z Demo.credit_slice
      (Fin 10000) = Ok bt' /\
    _options_inventory bt' = [entry] /\
    num_eq (t_cost (c_totals entry)) (Fin (-300)) /\
    num_eq (t_qty (c_totals entry)) (Fin 34) /\
    ~ num_eq (t_qty (c_totals entry)) (claimed_entry_qty 10000 (-300)) /\
    ~ num_eq (t_qty (c_totals entry))
             (Fin (inject_Z (Qfloor (Qabs (10000 / -300))))).
Proof.
  eexists. eexists. split; [vm_compute; reflexivity|].
  split; [reflexivity|]. repeat split; vm_compute; congruence.
Qed.

(** C2. Entry on a slice with two candidates at 2.00 and 1.30 and a target
    of 500: the first is entered with total cost 200 and quantity 2 and is
    appended to the inventory and to the trade log, but cash goes from 1000
    to 670: the debit is 200 + 130, the sum of the unit costs of all
    candidates, not 200 x 2. *)
Lemma entry_debits_unit_costs :
  exists bt' entry,
    _execute_option_entries (Demo.flat Demo.any_call) 1%Z
      [Demo.call_c1 1%Z (19 # 10) 2; Demo.call_c2 1%Z (12 # 10) (13 # 10)]
      (Fin 500) = Ok bt' /\
    _options_inventory bt' = [entry] /\
    trade_log bt' = [entry] /\
    num_eq (num_mul (t_cost (c_totals entry)) (t_qty (c_totals entry))) (Fin 400) /\
    num_eq (current_cash (Demo.flat Demo.any_call)) (Fin 1000) /\
    num_eq (current_cash bt') (Fin 670).
Proof.
  eexists. eexists. split; [vm_compute; reflexivity|].
  split; [reflexivity|]. repeat split; vm_compute; congruence.
Qed.

End EntryFacts.

(** ** Quote lookup, imputation and forced liquidation *)

Module ExitFacts.

Lemma filter_root_absent options c :
  c ∉ map optionroot options ->
  List.filter (fun q => String.eqb (optionroot q) c) options = [].
Proof.
  induction options as [|q qs IH]; [done|]. cbn. intros Hc.
  apply not_elem_of_cons in Hc as [Hq Hqs].
  destruct (String.eqb_spec (optionroot q) c) as [E|E]; [congruence|].
  apply IH, Hqs.
Qed.

Lemma filter_root_unique options c :
  NoDup (map optionroot options) ->
  (length (List.filter (fun q => String.eqb (optionroot q) c) options) <= 1)%nat.
Proof.
  induction options as [|q qs IH]; cbn; [lia|]. intros Hnd.
  apply NoDup_cons in Hnd as [Hq Hqs].
  destruct (String.eqb_spec (optionroot q) c) as [E|E]; [|by apply IH].
  cbn. rewrite filter_root_absent by congruence. cbn. lia.
Qed.

(** On a slice that lists each contract once the left join keeps the rows of
    the inventory. *)
Lemma left_join_unique keys options :
  NoDup (map optionroot options) ->
  left_join keys options = map (fun k => (k, find_quote k options)) keys.
Proof.
  intros Hnd. induction keys as [|k keys IH]; [done|].
  assert (E : left_join (k :: keys) options
              = left_join [k] options ++ left_join keys options).
  { unfold left_join. simpl. by rewrite app_nil_r. }
  rewrite E, IH. cbn [map]. unfold left_join. simpl. rewrite app_nil_r.
  destruct k as [c|]; [|done]. cbn [find_quote].
  pose proof (filter_root_unique options c Hnd) as Hlen.
  destruct (List.filter _ options) as [|q [|q' l]]; cbn in *; [done | done | lia].
Qed.

Lemma leg_quotes_unique bt options i leg :
  NoDup (map optionroot options) ->
  leg_quotes bt options i leg
  = Ok (map (quote_row bt options i leg) (_options_inventory bt)).
Proof.
  intros Hnd. unfold leg_quotes. rewrite left_join_unique by done.
  rewrite !length_map, Nat.eqb_refl. by rewrite !map_map.
Qed.

Lemma quotes_from_unique bt options ls : forall i,
  NoDup (map optionroot options) ->
  quotes_from bt options i ls
  = Ok (imap (fun j leg => map (quote_row bt options (i + j) leg) (_options_inventory bt))
             ls).
Proof.
  induction ls as [|leg ls IH]; intros i Hnd; [done|].
  cbn [quotes_from]. rewrite leg_quotes_unique by done.
  cbn [mbind result_bind]. rewrite IH by done. cbn [mbind result_bind].
  cbn [imap]. rewrite Nat.add_0_r. do 2 f_equal.
  apply imap_ext. intros j x _. cbn. by rewrite Nat.add_succ_r.
Qed.

(** Joining per-leg frames built row by row from the inventory gives one row
    per inventory row. *)
Lemma concat_axis1_imap {A : Type} (h : nat -> A -> combo -> leg_cells)
    (ls : list A) (inv : list combo) :
  concat_axis1 (length inv) (imap (fun j leg => map (h j leg) inv) ls)
  = map (fun c => imap (fun j leg => h j leg c) ls) inv.
Proof.
  unfold concat_axis1. apply list_eq. intros i.
  rewrite !list_lookup_fmap. destruct (inv !! i) as [c|] eqn:E; cbn.
  - rewrite lookup_seq_lt by (by eapply lookup_lt_Some). cbn. f_equal.
    rewrite fmap_imap. apply imap_ext. intros j leg _. cbn.
    by rewrite nth_lookup, list_lookup_fmap, E.
  - by rewrite lookup_seq_ge by (by apply lookup_ge_None).
Qed.

Lemma fillna_frame_map {A : Type} (F G : A -> frame_row) (l : list A) :
  fillna_frame (map F l) (map G l) = map (fun c => fillna_row (F c) (G c)) l.
Proof.
  unfold fillna_frame. apply list_eq. intros i.
  rewrite list_lookup_imap, !list_lookup_fmap.
  by destruct (l !! i).
Qed.

Lemma sell_candidates_unique bt options :
  sell_candidates bt
    (imap (fun j leg => map (quote_row bt options j leg) (_options_inventory bt))
          (legs (_options_strategy bt)))
  = map (fun c =>
           fillna_row
             (no_totals (imap (fun j leg => close_cells (quote_row bt options j leg c))
                              (legs (_options_strategy bt))))
             (fillna_row (to_frame c) (zero_cost_row bt c)))
        (_options_inventory bt).
Proof.
  unfold sell_candidates, _impute_missing_option_values.
  change (zero_costs bt) with (map (zero_cost_row bt) (_options_inventory bt)).
  rewrite fillna_frame_map, fmap_imap.
  erewrite (imap_ext _ (fun j leg =>
              map (fun c => close_cells (quote_row bt options j leg c))
                  (_options_inventory bt)))
    by (intros; cbn; by rewrite map_map).
  rewrite (concat_axis1_imap
             (fun j leg c => close_cells (quote_row bt options j leg c))).
  rewrite map_map. apply fillna_frame_map.
Qed.

(** On a slice that lists each contract once, forced liquidation succeeds
    and logs one row per inventory row. *)
Lemma sell_options_unique bt options d :
  NoDup (map optionroot options) ->
  legs (_options_strategy bt) <> [] ->
  _sell_options bt options d
  = let closed := map (closed_row bt options d) (_options_inventory bt) in
    Ok (set_cash
          (set_trade_log (set_options_inventory bt []) (trade_log bt ++ closed))
          (num_sub (current_cash bt) (cash_delta closed))).
Proof.
  intros Hnd Hls. unfold _sell_options, _get_current_option_quotes.
  rewrite quotes_from_unique by done. cbn [mbind result_bind Nat.add].
  assert (E : with_totals d
                (sell_candidates bt
                   (imap (fun j leg =>
                            map (quote_row bt options j leg) (_options_inventory bt))
                         (legs (_options_strategy bt))))
                (map (fun c => t_qty (c_totals c)) (_options_inventory bt))
              = map (closed_row bt options d) (_options_inventory bt)).
  { rewrite sell_candidates_unique. unfold with_totals.
    rewrite zip_with_fmap_l, zip_with_fmap_r, zip_with_diag. reflexivity. }
  remember (imap (fun j leg => map (quote_row bt options j leg) (_options_inventory bt))
                 (legs (_options_strategy bt))) as frames eqn:Ef.
  destruct frames as [|f fs].
  - apply (f_equal length) in Ef. rewrite length_imap in Ef.
    destruct (legs (_options_strategy bt)); [done | discriminate].
  - rewrite E. reflexivity.
Qed.





(** Applied to a candidate frame, the imputation sets a missing cost of a
    strategy leg to zero and reads the other missing cells of the leg from
    the inventory. *)
Lemma impute_zeroes_missing_cost bt cands i j row cell held_row held_cell :
  cands !! i = Some row ->
  r_legs row !! j = Some cell ->
  l_cost cell = NaN ->
  _options_inventory bt !! i = Some held_row ->
  c_legs held_row !! j = Some held_cell ->
  (j < length (legs (_options_strategy bt)))%nat ->
  exists row' cell',
    _impute_missing_option_values bt cands !! i = Some row' /\
    r_legs row' !! j = Some cell' /\
    l_cost cell' = Fin 0 /\
    l_contract cell' = fillna_cell (l_contract cell) (l_contract held_cell) /\
    l_underlying cell' = fillna_cell (l_underlying cell) (l_underlying held_cell) /\
    l_expiration cell' = fillna_cell (l_expiration cell) (l_expiration held_cell) /\
    l_type cell' = fillna_cell (l_type cell) (l_type held_cell) /\
    l_strike cell' = fillna_cell (l_strike cell) (l_strike held_cell).
Proof.
  intros Hrow Hcell Hcost Hheld Hhcell Hj.
  unfold _impute_missing_option_values, fillna_frame, zero_costs.
  rewrite list_lookup_imap, Hrow, list_lookup_fmap, Hheld.
  cbn [fmap option_fmap option_map].
  eexists. eexists. split; [reflexivity|].
  unfold fillna_row. cbn [r_legs].
  rewrite list_lookup_imap, Hcell, list_lookup_imap, Hhcell.
  cbn [fmap option_fmap option_map].
  apply Nat.ltb_lt in Hj. rewrite Hj.
  split; [reflexivity|]. cbn [fillna_legs set_cost l_cost l_contract l_underlying
                               l_expiration l_type l_strike].
  rewrite Hcost. by repeat split.
Qed.

(** The hand-written state [holding_c1] has the cash and the inventories the
    run on the demo market has after its first day. *)
Lemma holding_c1_reached :
  holdings_of Demo.after_first_day = holdings_of Demo.holding_c1.
Proof. vm_compute. reflexivity. Qed.

(** C7. A call bought at 2.00 on day 1 (entry cost 200, two units) has no
    quote in the slice of the rebalancing day 2.  In the completed run the
    trade log holds the entry and the forced close of day 2, and the close
    has leg cost 200, the inventory's entry cost, instead of 0; in the
    forced liquidation alone the total exit cost is 200 and cash drops from
    100 to -300. *)
Lemma forced_close_imputes_entry_cost :
  (exists bt opened closed cell,
     Demo.run_on Demo.long_call Demo.vanished = Ok bt /\
     trade_log bt = [opened; closed] /\
     c_legs closed = [cell] /\
     t_date (c_totals closed) = Some 2%Z /\
     l_contract cell = Some "C1"%string /\
     l_order cell = Some STC /\
     find_quote (Some "C1"%string)
       (List.filter (fun q => (quotedate q =? 2)%Z) (m_options Demo.vanished)) = None /\
     num_eq (l_cost cell) (Fin 200) /\
     ~ num_eq (l_cost cell) (Fin 0)) /\
  (exists bt1 row cell,
     _sell_options Demo.holding_c1 [Demo.call_c2 2%Z 1 1] 2%Z = Ok bt1 /\
     trade_log bt1 = [row] /\
     c_legs row = [cell] /\
     l_contract cell = Some "C1"%string /\
     num_eq (l_cost cell) (Fin 200) /\
     num_eq (t_cost (c_totals row)) (Fin 200) /\
     num_eq (current_cash Demo.holding_c1) (Fin 100) /\
     num_eq (current_cash bt1) (Fin (-300))).
Proof.
  split.
  - eexists. eexists. eexists. eexists. split; [vm_compute; reflexivity|].
    split; [reflexivity|]. split; [reflexivity|].
    repeat split; vm_compute; congruence.
  - eexists. eexists. eexists. split; [vm_compute; reflexivity|].
    split; [reflexivity|]. split; [reflexivity|].
    repeat split; vm_compute; congruence.
Qed.

(** A row whose contract has no quote is in its leg's mask of line 409,
    whatever the exit filter says. *)
Lemma missing_contract_in_leg_mask bt options j leg i c :
  _options_inventory bt !! i = Some c ->
  find_quote (l_contract (leg_of j c)) options = None ->
  leg_exit_mask leg (map (quote_row bt options j leg) (_options_inventory bt)) !! i
  = Some true.
Proof.
  intros Hc Hq. unfold leg_exit_mask.
  rewrite !list_lookup_fmap, Hc. cbn. rewrite Hq. cbn.
  by rewrite orb_true_r.
Qed.

Lemma fold_mask_or_keeps ms : forall m i,
  m !! i = Some true ->
  Forall (fun m' : list bool => length m' = length m) ms ->
  fold_left mask_or ms m !! i = Some true.
Proof.
  induction ms as [|m' ms IH]; intros m i Hm Hlen; [done|].
  inversion Hlen as [|? ? Hm' Hms]; subst. cbn.
  assert (Hl : length (mask_or m m') = length m).
  { unfold mask_or. rewrite length_zip_with. lia. }
  apply IH.
  - unfold mask_or. apply lookup_zip_with_Some.
    destruct (lookup_lt_is_Some_2 m' i) as [b Hb].
    { rewrite Hm'. by eapply lookup_lt_Some. }
    exists true, b. by repeat split.
  - eapply Forall_impl; [exact Hms|]. intros x Hx. cbn in Hx. congruence.
Qed.

Lemma fold_mask_or_gains ms : forall m0 m i,
  m ∈ ms -> m !! i = Some true ->
  Forall (fun m' : list bool => length m' = length m0) ms ->
  fold_left mask_or ms m0 !! i = Some true.
Proof.
  induction ms as [|m' ms IH]; intros m0 m i Hin Hm Hlen.
  - by apply elem_of_nil in Hin.
  - inversion Hlen as [|? ? Hm' Hms]; subst. cbn.
    assert (Hl : length (mask_or m0 m') = length m0).
    { unfold mask_or. rewrite length_zip_with. lia. }
    assert (Hms' : Forall (fun x : list bool => length x = length (mask_or m0 m')) ms).
    { eapply Forall_impl; [exact Hms|]. intros x Hx. cbn in Hx. congruence. }
    apply elem_of_cons in Hin as [-> | Hin].
    + apply fold_mask_or_keeps; [|exact Hms'].
      unfold mask_or. apply lookup_zip_with_Some.
      destruct (lookup_lt_is_Some_2 m0 i) as [b Hb].
      { rewrite <- Hm'. by eapply lookup_lt_Some. }
      exists b, true. repeat split; [|done..]. by rewrite orb_true_r.
    + by eapply IH.
Qed.

(** Lines 430-432: a row that is in the mask of some leg is in the exit
    mask, whatever the threshold mask says. *)
Lemma exits_mask_includes strategy held_costs total_costs masks m i :
  m ∈ masks -> m !! i = Some true ->
  Forall (fun m' : list bool => length m' = length m) masks ->
  length (filter_thresholds strategy held_costs total_costs) = length m ->
  exists mask,
    exits_mask strategy held_costs total_costs masks = Ok mask /\
    mask !! i = Some true.
Proof.
  intros Hin Hm Hlen Hth. unfold exits_mask, reduce_or.
  destruct masks as [|m0 ms]; [by apply elem_of_nil in Hin|].
  cbn [mbind result_bind]. eexists. split; [reflexivity|].
  inversion Hlen as [|? ? Hm0 Hms]; subst.
  assert (Hf : fold_left mask_or ms m0 !! i = Some true).
  { apply elem_of_cons in Hin as [-> | Hin].
    - by apply fold_mask_or_keeps.
    - eapply fold_mask_or_gains; [exact Hin | exact Hm |].
      eapply Forall_impl; [exact Hms|]. intros x Hx. cbn in Hx. congruence. }
  unfold mask_or at 1. apply lookup_zip_with_Some.
  destruct (lookup_lt_is_Some_2 (filter_thresholds strategy held_costs total_costs) i)
    as [b Hb].
  { rewrite Hth. by eapply lookup_lt_Some. }
  exists b, true. repeat split; [|done..]. by rewrite orb_true_r.
Qed.

(** C6. Filter-driven exit execution never returns: whatever the instance,
    the date and the slice, it ends in an exception, so no exit set is
    formed; once the quote lookup has succeeded for a strategy with legs the
    exception is the failed lookup of [self.legs]. *)
Theorem execute_option_exits_raises bt d options :
  (exists e, _execute_option_exits bt d options = Raise e) /\
  forall quotes,
    _get_current_option_quotes bt options = Ok quotes -> quotes <> [] ->
    _execute_option_exits bt d options = Raise (AttributeError "legs").
Proof.
  unfold _execute_option_exits. split.
  - destruct (_get_current_option_quotes bt options) as [[|f fs]|e];
      cbn [mbind result_bind]; by eexists.
  - intros quotes -> Hq. cbn [mbind result_bind].
    destruct quotes; [done | reflexivity].
Qed.

Lemma execute_option_exits_raises_witness :
  _execute_option_exits Demo.holding_c1 2%Z [Demo.call_c2 2%Z 1 1]
  = Raise (AttributeError "legs").
Proof.
  eapply (proj2 (execute_option_exits_raises Demo.holding_c1 2%Z
                   [Demo.call_c2 2%Z 1 1])).
  - vm_compute. reflexivity.
  - discriminate.
Defined.

End ExitFacts.

(** ** Ledger and main loop *)

Module RunFacts.

(** The derived total adds cash and stocks capital only. *)
Lemma derive_total_capital r (c s : Q) :
  b_cash r = Fin c -> py_sum (b_stocks r) = Fin s ->
  b_total_capital (derive r) = Fin (c + s) /\
  b_stocks_capital (derive r) = Fin s /\
  b_options_capital (derive r) = num_add (b_calls_capital r) (b_puts_capital r).
Proof.
  intros Hc Hs. unfold derive. cbn. rewrite Hc, Hs. by repeat split.
Qed.

(** C1. A completed run on the demo market with a long call: the ledger row
    of day 1 has cash 100, stocks capital 500 and options capital 380, and
    its total capital is 600, not 980: the options capital, passed to
    [Series.add] in the position of [level], is not added. *)
Lemma total_capital_omits_options :
  exists bt r,
    Demo.run_on Demo.long_call Demo.quoted = Ok bt /\
    balance bt !! 1%nat = Some r /\
    b_date r = 1%Z /\
    num_eq (b_cash r) (Fin 100) /\
    num_eq (b_stocks_capital r) (Fin 500) /\
    num_eq (b_options_capital r) (Fin 380) /\
    num_eq (b_total_capital r) (Fin 600) /\
    ~ num_eq (b_total_capital r)
        (num_add (num_add (b_cash r) (b_stocks_capital r)) (b_options_capital r)).
Proof.
  eexists. eexists. split; [vm_compute; reflexivity|].
  split; [reflexivity|]. split; [reflexivity|].
  repeat split; vm_compute; congruence.
Qed.

(** *** The rebalance does not touch the ledger *)





(** *** Positions in the rebalancing days *)

Lemma positions_shift (d : date) (l : list date) : forall g : nat -> nat,
  map fst (List.filter (fun x : nat * Z => (snd x =? d)%Z)
                       (imap (fun i x => (g i, x)) l))
  = map g (positions d l).
Proof.
  unfold positions. induction l as [|a l IH]; intros g; [done|].
  cbn [imap List.filter snd].
  change (imap ((fun i (x : date) => (g i, x)) ∘ S) l)
    with (imap (fun i (x : date) => ((g ∘ S) i, x)) l).
  change (imap ((fun i (x : date) => (i, x)) ∘ S) l)
    with (imap (fun i (x : date) => (S i, x)) l).
  destruct (a =? d)%Z; cbn [map fst];
    rewrite (IH (g ∘ S)), (IH S), (map_map S g); reflexivity.
Qed.

Lemma positions_cons d a l :
  positions d (a :: l) = (if (a =? d)%Z then [0%nat] else []) ++ map S (positions d l).
Proof.
  unfold positions at 1. cbn [imap List.filter snd].
  pose proof (positions_shift d l S) as E. cbn [compose].
  destruct (a =? d)%Z; cbn [map fst app]; unfold compose; by rewrite E.
Qed.






(** *** The loop between two rebalancing days *)

Lemma step_skip m days sma_days bt x :
  is_rebalancing_day days (entry_date x) = false ->
  step m days sma_days bt x = Ok bt.
Proof.
  destruct x as [[d stocks] options]. unfold step, entry_date. cbn [fst].
  by intros ->.
Qed.

Lemma loop_app m days sma_days l1 : forall bt l2,
  loop m days sma_days bt (l1 ++ l2)
  = bt1 ← loop m days sma_days bt l1; loop m days sma_days bt1 l2.
Proof.
  induction l1 as [|x l1 IH]; intros bt l2; [done|].
  cbn [app loop]. destruct (step m days sma_days bt x); cbn [mbind result_bind];
    [apply IH | done].
Qed.


Lemma filter_none {A : Type} (p : A -> bool) (l : list A) :
  Forall (fun x => p x = false) l -> List.filter p l = [].
Proof.
  induction 1 as [|x l Hx _ IH]; [done|]. cbn. by rewrite Hx.
Qed.



End RunFacts.

(* ================================================================= *)
(** * Further properties of the engine *)

(** ** Constructor and setter *)

Module InitExtra.
Import Init.

(** X2. The constructor reads the three asset keys only and stores exactly these
    three: two dicts that agree on them give the same instance, and a key
    absent from the input is stored with fraction 0 (unless the total is
    NaN, which takes a non-finite value in the dict). *)
Theorem init_reads_three_keys alloc alloc' capital spc :
  (forall a, a ∈ assets -> alloc !! a = alloc' !! a) ->
  __init__ alloc capital spc = __init__ alloc' capital spc /\
  forall c, __init__ alloc capital spc = Ok c ->
    dom (allocation c) = list_to_set assets /\
    forall a, a ∈ assets -> alloc !! a = None ->
      isna (total_allocation alloc) = false ->
      dict_get (allocation c) a (Fin 0) = Fin 0.
Proof.
  intros Hagree.
  assert (Hg : forall a, a ∈ assets ->
                dict_get alloc a (Fin 0) = dict_get alloc' a (Fin 0)).
  { intros a Ha. unfold dict_get. by rewrite (Hagree a Ha). }
  assert (Ht : total_allocation alloc = total_allocation alloc').
  { unfold total_allocation, assets. cbn [map].
    rewrite !Hg by (unfold assets; set_solver). reflexivity. }
  split.
  - unfold __init__, normalize, assets. rewrite Ht.
    rewrite !Hg by (unfold assets; set_solver). reflexivity.
  - intros c Hc. pose proof (InitFacts.init_inv _ _ _ _ Hc) as [Hz Hl]. split.
    + revert Hc. unfold __init__, assets, normalize, py_div. rewrite Hz.
      cbv [mbind result_bind]. intros [= <-]. cbn [allocation].
      rewrite !dom_insert_L, dom_empty_L. cbn. set_solver.
    + intros a Ha Hnone Hnan. unfold dict_get at 1. rewrite (Hl a Ha). cbn [default].
      unfold dict_get. rewrite Hnone. cbn [default].
      destruct (total_allocation alloc) as [t| |]; [|reflexivity|discriminate].
      cbn [Binary64.div]. unfold Binary64.round.
      assert (E : Qeq_bool (0 / t) 0 = true).
      { apply Qeq_bool_iff. unfold Qdiv. apply Qmult_0_l. }
      by rewrite E.
Qed.

Lemma init_reads_three_keys_witness :
  __init__ (<["bonds"%string := Fin 5]> alloc_60_30_10) (1000000 # 1) (100 # 1)
  = __init__ alloc_60_30_10 (1000000 # 1) (100 # 1).
Proof.
  apply (init_reads_three_keys (<["bonds"%string := Fin 5]> alloc_60_30_10)
           alloc_60_30_10).
  intros a Ha. unfold assets in Ha.
  repeat (apply elem_of_cons in Ha as [-> | Ha]);
    [by vm_compute .. | by apply elem_of_nil in Ha].
Defined.

(** X3. The setter accepts a list of stocks exactly when their percentages sum
    to 1 within 1.1e-5 (the absolute tolerance 1e-6 plus numpy's default
    relative tolerance 1e-5 of the reference value 1), and then stores the
    list as given; the empty list is rejected. *)
Theorem stocks_setter_tolerance stocks :
  (Qabs (py_sum (map percentage stocks) - 1) <= 11 # 1000000 ->
   stocks_setter stocks = Accepted stocks) /\
  (~ Qabs (py_sum (map percentage stocks) - 1) <= 11 # 1000000 ->
   stocks_setter stocks = AssertionError "Stock percentages must sum to 1.0") /\
  stocks_setter [] = AssertionError "Stock percentages must sum to 1.0".
Proof.
  unfold stocks_setter, isclose.
  assert (E : (1 # 1000000) + (1 # 100000) * Qabs 1 == 11 # 1000000) by reflexivity.
  split; [|split; [|reflexivity]].
  - intros H. rewrite <- E in H. apply Qle_bool_iff in H. by rewrite H.
  - intros H. destruct (Qle_bool _ _) eqn:Hb; [|reflexivity].
    apply Qle_bool_iff in Hb. rewrite E in Hb. contradiction.
Qed.

Lemma stocks_setter_tolerance_witness :
  stocks_setter [ {| symbol := "SPY"; percentage := 60001 # 100000 |};
                  {| symbol := "TLT"; percentage := 4 # 10 |} ]
  = Accepted [ {| symbol := "SPY"; percentage := 60001 # 100000 |};
               {| symbol := "TLT"; percentage := 4 # 10 |} ].
Proof.
  apply (proj1 (stocks_setter_tolerance _)). vm_compute. discriminate.
Defined.

(** X27. When the values for stocks, options and cash are finite but their
    float total overflows to an infinity, the constructor still returns, and
    every stored fraction is 0.0. *)
Theorem overflow_stores_zero alloc capital spc (negative : bool) :
  total_allocation alloc = Inf negative ->
  (forall a, a ∈ assets -> exists v, dict_get alloc a (Fin 0) = Fin v) ->
  exists c,
    __init__ alloc capital spc = Ok c /\
    forall a, a ∈ assets -> allocation c !! a = Some (Fin 0).
Proof.
  intros Ht Hfin.
  destruct (Hfin "stocks"%string) as [v1 E1]; [unfold assets; set_solver|].
  destruct (Hfin "options"%string) as [v2 E2]; [unfold assets; set_solver|].
  destruct (Hfin "cash"%string) as [v3 E3]; [unfold assets; set_solver|].
  unfold __init__, assets, normalize, py_div. rewrite Ht, E1, E2, E3.
  cbn [Binary64.is_zero Binary64.div mbind result_bind].
  eexists. split; [reflexivity|]. cbn [allocation].
  intros a Ha.
  repeat (apply elem_of_cons in Ha as [-> | Ha]);
    [by simplify_map_eq .. | by apply elem_of_nil in Ha].
Qed.

Lemma overflow_stores_zero_witness :
  exists c,
    __init__ alloc_huge 1000000 100 = Ok c /\
    allocation c !! "stocks"%string = Some (Fin 0).
Proof.
  edestruct (overflow_stores_zero alloc_huge 1000000 100 false) as (c & Hc & Hz).
  - vm_compute. reflexivity.
  - intros a Ha. unfold assets in Ha.
    repeat (apply elem_of_cons in Ha as [-> | Ha]);
      [eexists; reflexivity .. | by apply elem_of_nil in Ha].
  - exists c. split; [exact Hc|]. apply Hz. unfold assets. by left.
Defined.

End InitExtra.

(** ** Stocks *)

Module StockExtra.

(** X5. A window of 0 days switches the SMA filter off; with a window
    configured, a slice whose SMA is not yet available (NaN in every row)
    buys no share of any stock. *)
Theorem sma_filter_edges bt stocks allocation :
  _buy_stocks bt stocks allocation (Some 0%Z) = _buy_stocks bt stocks allocation None /\
  forall sma_days bt',
    truthy sma_days = true ->
    (forall r, r ∈ stocks -> sma r = NaN) ->
    _buy_stocks bt stocks allocation sma_days = Ok bt' ->
    forall h, h ∈ _stocks_inventory bt' -> h_qty h = Fin 0.
Proof.
  split; [reflexivity|].
  intros sma_days bt' Hs Hnan Hbuy h Hh. unfold _buy_stocks in Hbuy.
  destruct (_ =? _)%nat; [|discriminate]. injection Hbuy as <-.
  cbn [set_stocks_inventory _stocks_inventory] in Hh.
  apply list_elem_of_lookup in Hh as [i Hh].
  apply lookup_zip_with_Some in Hh as (st & row & -> & _ & Hrow).
  cbn [h_qty]. apply StockEntryFacts.stock_qty_gated; [exact Hs|].
  assert (Hin : row ∈ stocks).
  { apply list_elem_of_lookup_2 in Hrow. apply list_elem_of_In in Hrow.
    apply filter_In in Hrow as [Hrow _]. by apply list_elem_of_In. }
  by rewrite (Hnan row Hin).
Qed.

Lemma sma_filter_edges_witness :
  exists bt' h,
    _buy_stocks Demo.holding_c1 [Demo.spy 2%Z 10] (Fin 500) (Some 20%Z) = Ok bt' /\
    _stocks_inventory bt' = [h] /\ h_qty h = Fin 0.
Proof.
  eexists. eexists. split; [reflexivity|]. split; [reflexivity|].
  eapply (proj2 (sma_filter_edges Demo.holding_c1 [Demo.spy 2%Z 10] (Fin 500))
            (Some 20%Z)); [reflexivity | | reflexivity | by left].
  intros r Hr. apply list_elem_of_singleton in Hr as ->. reflexivity.
Defined.

Lemma no_row_filter stocks h :
  has_row stocks h = false ->
  List.filter (fun r => String.eqb (s_symbol r) (h_symbol h)) stocks = [].
Proof.
  unfold has_row. induction stocks as [|r rs IH]; [done|]. cbn.
  destruct (String.eqb _ _); cbn; [discriminate | exact IH].
Qed.

(** X6. A held stock that has no row in the slice adds nothing to the current
    stock capital (its missing price is skipped by the sum, no error is
    raised): the capital is that of the holdings that do have a row, and 0
    when none has. *)
Theorem stock_capital_skips_missing bt stocks :
  _current_stock_capital bt stocks
  = _current_stock_capital
      (set_stocks_inventory bt (List.filter (has_row stocks) (_stocks_inventory bt)))
      stocks /\
  ((forall h, h ∈ _stocks_inventory bt -> has_row stocks h = false) ->
   _current_stock_capital bt stocks = Fin 0).
Proof.
  unfold _current_stock_capital, series_sum.
  cbn [set_stocks_inventory _stocks_inventory]. split.
  - f_equal. induction (_stocks_inventory bt) as [|h inv IH]; [done|].
    cbn [flat_map List.filter]. rewrite List.filter_app, IH.
    destruct (has_row stocks h) eqn:E.
    + cbn [flat_map]. by rewrite List.filter_app.
    + by rewrite (no_row_filter stocks h E).
  - intros Hnone.
    assert (E : List.filter (fun x : num => negb (isna x))
                  (flat_map (fun h =>
                     match List.filter (fun r => String.eqb (s_symbol r) (h_symbol h))
                                       stocks with
                     | [] => [NaN]
                     | ms => map (fun r => num_mul (Fin (adjClose r)) (h_qty h)) ms
                     end) (_stocks_inventory bt)) = []).
    { induction (_stocks_inventory bt) as [|h inv IH]; [done|].
      cbn [flat_map]. rewrite List.filter_app, IH by (intros; apply Hnone; by right).
      rewrite (no_row_filter stocks h) by (apply Hnone; by left). reflexivity. }
    by rewrite E.
Qed.

Lemma stock_capital_skips_missing_witness :
  _current_stock_capital Demo.holding_c1 [] = Fin 0.
Proof.
  apply (proj2 (stock_capital_skips_missing Demo.holding_c1 [])).
  intros h _. reflexivity.
Defined.

End StockExtra.

(** ** Quote lookup *)

Module LookupExtra.

Lemma leg_quotes_length bt options i leg f :
  leg_quotes bt options i leg = Ok f -> length f = length (_options_inventory bt).
Proof.
  unfold leg_quotes. destruct (_ =? _)%nat eqn:E; [|discriminate].
  intros [= <-]. rewrite length_map. by apply Nat.eqb_eq in E.
Qed.

Lemma quotes_from_shape bt options ls : forall i frames,
  quotes_from bt options i ls = Ok frames ->
  length frames = length ls /\
  Forall (fun f => length f = length (_options_inventory bt)) frames.
Proof.
  induction ls as [|leg ls IH]; intros i frames; cbn [quotes_from].
  - intros [= <-]. by split.
  - destruct (leg_quotes bt options i leg) as [f|e] eqn:Ef;
      cbn [mbind result_bind]; [|discriminate].
    destruct (quotes_from bt options (S i) ls) as [fs|e] eqn:Efs;
      cbn [mbind result_bind]; [|discriminate].
    intros [= <-]. destruct (IH _ _ Efs) as [Hl Hf].
    split; [cbn; by rewrite Hl|].
    constructor; [by eapply leg_quotes_length | exact Hf].
Qed.

(** X7. When the quote lookup returns, it returns one frame per strategy leg
    and every frame has exactly as many rows as the options inventory. *)
Theorem quotes_have_inventory_shape bt options frames :
  _get_current_option_quotes bt options = Ok frames ->
  length frames = length (legs (_options_strategy bt)) /\
  Forall (fun f => length f = length (_options_inventory bt)) frames.
Proof. apply quotes_from_shape. Qed.

Lemma quotes_have_inventory_shape_witness :
  exists frames,
    _get_current_option_quotes Demo.holding_c1 [Demo.call_c2 2%Z 1 1] = Ok frames /\
    length frames = 1%nat.
Proof.
  eexists. split; [reflexivity|].
  eapply (proj1 (quotes_have_inventory_shape Demo.holding_c1
                   [Demo.call_c2 2%Z 1 1] _ _)).
  Unshelve. reflexivity.
Defined.

Lemma left_join_length_ge keys options :
  (length keys <= length (left_join keys options))%nat.
Proof.
  unfold left_join. induction keys as [|k keys IH]; [done|].
  cbn [flat_map]. rewrite length_app. cbn [length].
  assert (1 <= length (match k with
                       | Some c =>
                           match List.filter (fun q => String.eqb (optionroot q) c)
                                             options with
                           | [] => [(k, None)]
                           | q :: l => map (fun q0 => (k, Some q0)) (q :: l)
                           end
                       | None => [(k, None)]
                       end))%nat; [|lia].
  destruct k as [c|]; [|done].
  destruct (List.filter _ options); cbn; lia.
Qed.

Lemma left_join_longer keys options k :
  Some k ∈ keys ->
  (2 <= length (List.filter (fun q => String.eqb (optionroot q) k) options))%nat ->
  (length keys < length (left_join keys options))%nat.
Proof.
  intros Hin Hdup. apply list_elem_of_split in Hin as (l1 & l2 & ->).
  assert (E : left_join (l1 ++ Some k :: l2) options
              = left_join l1 options ++ left_join [Some k] options
                ++ left_join l2 options).
  { unfold left_join. rewrite flat_map_app. cbn [flat_map]. by rewrite app_nil_r. }
  rewrite E, !length_app. cbn [length].
  pose proof (left_join_length_ge l1 options).
  pose proof (left_join_length_ge l2 options).
  assert (2 <= length (left_join [Some k] options))%nat; [|lia].
  unfold left_join. cbn [flat_map]. rewrite app_nil_r.
  destruct (List.filter _ options) as [|q l]; cbn in *; [lia|].
  rewrite length_map. lia.
Qed.

Lemma leg_quotes_raises bt options i leg e :
  leg_quotes bt options i leg = Raise e -> e = ValueError.
Proof.
  unfold leg_quotes. destruct (_ =? _)%nat; [discriminate|]. by intros [= <-].
Qed.

Lemma quotes_from_duplicate bt options k c ls : forall i j leg,
  ls !! j = Some leg ->
  c ∈ _options_inventory bt ->
  l_contract (leg_of (i + j) c) = Some k ->
  (2 <= length (List.filter (fun q => String.eqb (optionroot q) k) options))%nat ->
  quotes_from bt options i ls = Raise ValueError.
Proof.
  induction ls as [|l ls IH]; intros i j leg Hj Hc Hk Hdup; [done|].
  cbn [quotes_from]. destruct j as [|j].
  - rewrite Nat.add_0_r in Hk. unfold leg_quotes.
    assert (Hlt : (length (_options_inventory bt)
                   < length (left_join (map (fun c => l_contract (leg_of i c))
                                            (_options_inventory bt)) options))%nat).
    { rewrite <- (length_map (fun c => l_contract (leg_of i c))) at 1.
      apply (left_join_longer _ _ k); [|exact Hdup].
      rewrite <- Hk. apply list_elem_of_fmap. by exists c. }
    destruct (Nat.eqb_spec
                (length (left_join (map (fun c => l_contract (leg_of i c))
                                        (_options_inventory bt)) options))
                (length (_options_inventory bt))); [lia | reflexivity].
  - destruct (leg_quotes bt options i l) as [f|e] eqn:E; cbn [mbind result_bind].
    + rewrite (IH (S i) j leg); [done | exact Hj | exact Hc | | exact Hdup].
      by rewrite Nat.add_succ_comm.
    + by rewrite (leg_quotes_raises _ _ _ _ _ E).
Qed.

(** X8. If the slice lists a held contract twice, the left join no longer
    has the row count of the inventory: the quote lookup raises ValueError,
    and with it the forced liquidation and the whole rebalance. *)
Theorem duplicate_quote_raises bt options d stocks sma_days j leg c k :
  legs (_options_strategy bt) !! j = Some leg ->
  c ∈ _options_inventory bt ->
  l_contract (leg_of j c) = Some k ->
  (2 <= length (List.filter (fun q => String.eqb (optionroot q) k) options))%nat ->
  _get_current_option_quotes bt options = Raise ValueError /\
  _sell_options bt options d = Raise ValueError /\
  _rebalance_portfolio bt d stocks options sma_days = Raise ValueError.
Proof.
  intros Hj Hc Hk Hdup.
  assert (E : _get_current_option_quotes bt options = Raise ValueError).
  { unfold _get_current_option_quotes. by eapply (quotes_from_duplicate _ _ k c _ 0 j). }
  split; [exact E|].
  assert (E' : _sell_options bt options d = Raise ValueError).
  { unfold _sell_options. by rewrite E. }
  split; [exact E'|]. unfold _rebalance_portfolio. by rewrite E'.
Qed.

Lemma duplicate_quote_raises_witness :
  _sell_options Demo.holding_c1
    [Demo.call_c1 2%Z (5 # 2) (26 # 10); Demo.call_c1 2%Z (5 # 2) (27 # 10)] 2%Z
  = Raise ValueError.
Proof.
  eapply (proj1 (proj2 (duplicate_quote_raises Demo.holding_c1 _ 2%Z [] None
                          0%nat _ _ "C1"%string _ _ _ _))).
  Unshelve.
  - exact (Demo.leg BUY Demo.is_c1).
  - exact {| c_legs := [ entry_cells 100 (Demo.leg BUY Demo.is_c1)
                                     (Demo.call_c1 1%Z (19 # 10) 2) ];
             c_totals := {| t_cost := Fin 200; t_qty := Fin 2; t_date := Some 1%Z |} |}.
  - reflexivity.
  - by left.
  - reflexivity.
  - cbn. lia.
Defined.

Lemma find_quote_in options q :
  NoDup (map optionroot options) -> q ∈ options ->
  find_quote (Some (optionroot q)) options = Some q.
Proof.
  intros Hnd Hq. cbn [find_quote].
  induction options as [|q' qs IH]; [by apply elem_of_nil in Hq|].
  cbn [map] in Hnd. apply NoDup_cons in Hnd as [Hq' Hnd]. cbn [List.filter].
  apply elem_of_cons in Hq as [-> | Hq].
  - by rewrite String.eqb_refl.
  - destruct (String.eqb_spec (optionroot q') (optionroot q)) as [E|E]; [|by apply IH].
    exfalso. apply Hq'. rewrite E. apply list_elem_of_fmap. by exists q.
Qed.

Lemma find_quote_absent options k :
  (forall q, q ∈ options -> optionroot q <> k) ->
  find_quote (Some k) options = None.
Proof.
  intros Hno. cbn [find_quote].
  rewrite ExitFacts.filter_root_absent; [done|].
  intros Hin. apply list_elem_of_fmap in Hin as (q & -> & Hq). by apply (Hno q).
Qed.

(** X9. On a slice that lists each contract once, the row that the quote
    lookup returns for a held leg carries the inventory's contract and the
    cost of closing the leg: a bought leg closes at minus the bid times the
    multiplier (tag STC), a sold leg at the ask times the multiplier (tag
    BTC), and a contract without a row in the slice has a missing (NaN)
    cost. *)
Theorem quote_lookup_costs bt options frames j leg f i c k :
  NoDup (map optionroot options) ->
  _get_current_option_quotes bt options = Ok frames ->
  legs (_options_strategy bt) !! j = Some leg ->
  frames !! j = Some f ->
  _options_inventory bt !! i = Some c ->
  l_contract (leg_of j c) = Some k ->
  exists r,
    f !! i = Some r /\
    lq_contract r = Some k /\
    lq_order r = get_order (direction leg) EXIT /\
    ((forall q, q ∈ options -> optionroot q <> k) -> isna (lq_cost r) = true) /\
    (forall q, q ∈ options -> optionroot q = k ->
       lq_quote r = Some q /\
       lq_cost r = match direction leg with
                   | BUY => Fin (- bid q * shares_per_contract bt)
                   | SELL => Fin (ask q * shares_per_contract bt)
                   end).
Proof.
  intros Hnd Hq Hleg Hf Hc Hk.
  unfold _get_current_option_quotes in Hq.
  rewrite ExitFacts.quotes_from_unique in Hq by done. injection Hq as <-.
  rewrite list_lookup_imap, Hleg in Hf. cbn in Hf. injection Hf as <-.
  exists (quote_row bt options j leg c).
  split; [by rewrite list_lookup_fmap, Hc|].
  unfold quote_row. cbn [lq_contract lq_order lq_cost lq_quote]. rewrite Hk.
  split; [reflexivity|]. split; [reflexivity|]. split.
  - intros Hno. by rewrite find_quote_absent.
  - intros q Hin <-. rewrite find_quote_in by done.
    split; [reflexivity|]. by destruct (direction leg).
Qed.

Lemma quote_lookup_costs_witness :
  exists r,
    lq_contract r = Some "C1"%string /\
    lq_cost r = Fin (- (5 # 2) * 100).
Proof.
  edestruct (quote_lookup_costs Demo.holding_c1 [Demo.call_c1 2%Z (5 # 2) (26 # 10)])
    with (j := 0%nat) (i := 0%nat) (k := "C1"%string)
    as (r & _ & Hk & _ & _ & Hcost).
  - repeat constructor. intros H. inversion H.
  - reflexivity.
  - reflexivity.
  - reflexivity.
  - reflexivity.
  - reflexivity.
  - exists r. split; [exact Hk|].
    destruct (Hcost (Demo.call_c1 2%Z (5 # 2) (26 # 10))) as [_ E];
      [by left | reflexivity | exact E].
Defined.

End LookupExtra.

(** ** Imputation *)

Module ImputeExtra.

Lemma fillna_cell_idem {A : Type} (a b : option A) :
  fillna_cell (fillna_cell a b) b = fillna_cell a b.
Proof. by destruct a, b. Qed.

Lemma fillna_num_idem (a b : num) : fillna_num (fillna_num a b) b = fillna_num a b.
Proof. unfold fillna_num. destruct a; cbn; try reflexivity. by destruct b. Qed.

Lemma fillna_legs_idem (a b : leg_cells) :
  fillna_legs (fillna_legs a b) b = fillna_legs a b.
Proof.
  unfold fillna_legs. cbn. by rewrite !fillna_cell_idem, fillna_num_idem.
Qed.

Lemma fillna_totals_idem (a b : totals) :
  fillna_totals (fillna_totals a b) b = fillna_totals a b.
Proof.
  unfold fillna_totals. cbn. by rewrite fillna_cell_idem, !fillna_num_idem.
Qed.

Lemma fillna_row_idem (a b : frame_row) :
  fillna_row (fillna_row a b) b = fillna_row a b.
Proof.
  unfold fillna_row. cbn [r_legs r_totals]. f_equal.
  - apply list_eq. intros j. rewrite !list_lookup_imap.
    destruct (r_legs a !! j) as [cell|]; cbn; [|done].
    destruct (r_legs b !! j); [|done]. by rewrite fillna_legs_idem.
  - destruct (r_totals a), (r_totals b); try reflexivity.
    by rewrite fillna_totals_idem.
Qed.

(** X10. Imputing twice is the same as imputing once, and imputation keeps
    the shape of the frame: the number of rows and the number of leg blocks
    of every row. *)
Theorem impute_idempotent bt (cands : list frame_row) :
  _impute_missing_option_values bt (_impute_missing_option_values bt cands)
  = _impute_missing_option_values bt cands /\
  length (_impute_missing_option_values bt cands) = length cands /\
  forall i row row',
    cands !! i = Some row ->
    _impute_missing_option_values bt cands !! i = Some row' ->
    length (r_legs row') = length (r_legs row).
Proof.
  unfold _impute_missing_option_values, fillna_frame. split; [|split].
  - apply list_eq. intros i. rewrite !list_lookup_imap.
    destruct (cands !! i) as [row|]; cbn; [|done].
    destruct (zero_costs bt !! i); [|done]. by rewrite fillna_row_idem.
  - apply length_imap.
  - intros i row row' Hrow. rewrite list_lookup_imap, Hrow. cbn.
    intros [= <-]. destruct (zero_costs bt !! i); [|done].
    unfold fillna_row. cbn [r_legs]. apply length_imap.
Qed.

(** X11. Imputation fills gaps only.  In the cell of a strategy leg of a
    candidate row, a value that is present is kept, a missing cost becomes
    exactly 0, and any other missing value is read from the same cell of the
    inventory row at that position. *)
Theorem impute_fills_gaps_only bt cands i j row cell held_row held_cell :
  cands !! i = Some row ->
  r_legs row !! j = Some cell ->
  _options_inventory bt !! i = Some held_row ->
  c_legs held_row !! j = Some held_cell ->
  (j < length (legs (_options_strategy bt)))%nat ->
  exists row' cell',
    _impute_missing_option_values bt cands !! i = Some row' /\
    r_legs row' !! j = Some cell' /\
    l_cost cell' = (if isna (l_cost cell) then Fin 0 else l_cost cell) /\
    l_contract cell' = match l_contract cell with
                       | Some v => Some v
                       | None => l_contract held_cell
                       end /\
    l_underlying cell' = match l_underlying cell with
                         | Some v => Some v
                         | None => l_underlying held_cell
                         end /\
    l_expiration cell' = match l_expiration cell with
                         | Some v => Some v
                         | None => l_expiration held_cell
                         end /\
    l_type cell' = match l_type cell with
                   | Some v => Some v
                   | None => l_type held_cell
                   end /\
    l_strike cell' = match l_strike cell with
                     | Some v => Some v
                     | None => l_strike held_cell
                     end /\
    l_order cell' = match l_order cell with
                    | Some v => Some v
                    | None => l_order held_cell
                    end.
Proof.
  intros Hrow Hcell Hheld Hhcell Hj.
  unfold _impute_missing_option_values, fillna_frame, zero_costs.
  rewrite list_lookup_imap, Hrow, list_lookup_fmap, Hheld.
  cbn [fmap option_fmap option_map].
  eexists. eexists. split; [reflexivity|].
  unfold fillna_row. cbn [r_legs].
  rewrite list_lookup_imap, Hcell, list_lookup_imap, Hhcell.
  cbn [fmap option_fmap option_map].
  apply Nat.ltb_lt in Hj. rewrite Hj.
  split; [reflexivity|].
  cbn [fillna_legs set_cost l_cost l_contract l_underlying l_expiration l_type
       l_strike l_order].
  unfold fillna_num, fillna_cell.
  repeat split; try reflexivity;
    match goal with |- context [match ?x with _ => _ end] => by destruct x end.
Qed.

Lemma impute_fills_gaps_only_witness :
  exists row' cell',
    _impute_missing_option_values Demo.holding_c1 [no_totals [nan_cells]] !! 0%nat
      = Some row' /\
    r_legs row' !! 0%nat = Some cell' /\
    l_cost cell' = Fin 0 /\
    l_contract cell' = Some "C1"%string.
Proof.
  edestruct (impute_fills_gaps_only Demo.holding_c1 [no_totals [nan_cells]]
               0%nat 0%nat)
    as (row' & cell' & Hrow & Hcell & Hcost & Hcontract & _);
    [reflexivity | reflexivity | reflexivity | reflexivity | cbn; lia |].
  exists row', cell'. split; [exact Hrow|]. split; [exact Hcell|].
  split; [exact Hcost | exact Hcontract].
Defined.

End ImputeExtra.

(** ** Forced liquidation *)

Module LiquidationExtra.

Lemma num_sub_zero (x : num) : num_eq (num_sub x (Fin 0)) x.
Proof.
  destruct x as [q| |]; cbn; [|reflexivity|exact I].
  unfold Qeq. cbn. lia.
Qed.

Lemma quotes_from_empty bt options ls : forall i,
  _options_inventory bt = [] ->
  quotes_from bt options i ls = Ok (map (fun _ => []) ls).
Proof.
  induction ls as [|leg ls IH]; intros i Hinv; [done|].
  cbn [quotes_from]. unfold leg_quotes at 1. rewrite Hinv. cbn.
  rewrite IH by done. reflexivity.
Qed.

(** X12. Forced liquidation of an empty options inventory, as at the first
    rebalance of a run, succeeds on any slice and changes nothing: no row is
    logged, the inventories and the ledger are as before and cash keeps its
    value. *)
Theorem sell_options_empty bt options d :
  _options_inventory bt = [] ->
  legs (_options_strategy bt) <> [] ->
  exists bt',
    _sell_options bt options d = Ok bt' /\
    trade_log bt' = trade_log bt /\
    _options_inventory bt' = [] /\
    _stocks_inventory bt' = _stocks_inventory bt /\
    balance bt' = balance bt /\
    num_eq (current_cash bt') (current_cash bt).
Proof.
  intros Hinv Hls. unfold _sell_options, _get_current_option_quotes.
  rewrite quotes_from_empty by done. cbn [mbind result_bind].
  destruct (legs (_options_strategy bt)) as [|l ls]; [done|]. cbn [map].
  unfold sell_candidates, with_totals, concat_axis1. rewrite Hinv. cbn.
  eexists. split; [reflexivity|]. cbn.
  split; [apply app_nil_r|]. repeat split; try done.
  apply num_sub_zero.
Qed.

Lemma sell_options_empty_witness :
  exists bt',
    _sell_options (Demo.flat Demo.long_call) [Demo.call_c1 1%Z (19 # 10) 2] 1%Z = Ok bt' /\
    trade_log bt' = [].
Proof.
  destruct (sell_options_empty (Demo.flat Demo.long_call)
              [Demo.call_c1 1%Z (19 # 10) 2] 1%Z)
    as (bt' & H & Hlog & _); [reflexivity | discriminate |].
  exists bt'. split; [exact H | exact Hlog].
Defined.

(** X13. A strategy without legs cannot be traded: forced liquidation,
    option entry, filter-driven exit and the rebalance all raise ValueError
    (there is no per-leg frame to concatenate), whatever the inventory and
    the slice. *)
Theorem no_legs_raise bt options d stocks sma_days allocation :
  legs (_options_strategy bt) = [] ->
  _sell_options bt options d = Raise ValueError /\
  _execute_option_entries bt d options allocation = Raise ValueError /\
  _execute_option_exits bt d options = Raise ValueError /\
  _rebalance_portfolio bt d stocks options sma_days = Raise ValueError.
Proof.
  intros Hls.
  assert (E : _sell_options bt options d = Raise ValueError).
  { unfold _sell_options, _get_current_option_quotes. by rewrite Hls. }
  split; [exact E|].
  split; [unfold _execute_option_entries; by rewrite Hls|].
  split; [unfold _execute_option_exits, _get_current_option_quotes; by rewrite Hls|].
  unfold _rebalance_portfolio. by rewrite E.
Qed.

Lemma no_legs_raise_witness :
  _rebalance_portfolio (Demo.flat (Demo.strategy_of [])) 1%Z [Demo.spy 1%Z 10]
    [Demo.call_c1 1%Z (19 # 10) 2] None = Raise ValueError.
Proof.
  apply (no_legs_raise (Demo.flat (Demo.strategy_of [])) _ 1%Z _ None (Fin 0)).
  reflexivity.
Defined.

(** X14. On a slice that lists each contract once, the row that forced
    liquidation logs for a held combination stands in the trade log at the
    position of the combination, and each of its legs that is quoted in the
    slice is closed at that quote: a bought leg at minus the bid times the
    multiplier, a sold leg at the ask times the multiplier, with the exit tag
    and the strike and expiration of the quote. *)
Theorem forced_close_at_quotes bt options d i c :
  NoDup (map optionroot options) ->
  legs (_options_strategy bt) <> [] ->
  _options_inventory bt !! i = Some c ->
  exists bt1 row,
    _sell_options bt options d = Ok bt1 /\
    trade_log bt1 !! (length (trade_log bt) + i)%nat = Some row /\
    forall j leg q,
      legs (_options_strategy bt) !! j = Some leg ->
      q ∈ options ->
      l_contract (leg_of j c) = Some (optionroot q) ->
      exists cell,
        c_legs row !! j = Some cell /\
        l_cost cell = match direction leg with
                      | BUY => Fin (- bid q * shares_per_contract bt)
                      | SELL => Fin (ask q * shares_per_contract bt)
                      end /\
        l_order cell = Some (get_order (direction leg) EXIT) /\
        l_strike cell = Some (strike q) /\
        l_expiration cell = Some (expiration q).
Proof.
  intros Hnd Hls Hc.
  pose proof (ExitFacts.sell_options_unique bt options d Hnd Hls) as Hsell.
  cbn zeta in Hsell. eexists. exists (closed_row bt options d c).
  split; [exact Hsell|]. cbn [trade_log set_cash set_trade_log].
  split.
  { rewrite lookup_app_r by lia.
    replace (length (trade_log bt) + i - length (trade_log bt))%nat with i by lia.
    by rewrite list_lookup_fmap, Hc. }
  intros j leg q Hleg Hq Hk.
  unfold closed_row. cbn [c_legs]. unfold fillna_row at 1. cbn [r_legs no_totals].
  rewrite !list_lookup_imap, Hleg. cbn [fmap option_fmap option_map].
  eexists. split; [reflexivity|].
  assert (Hfind : find_quote (l_contract (leg_of j c)) options = Some q).
  { rewrite Hk. by apply LookupExtra.find_quote_in. }
  assert (Hcost : lq_cost (quote_row bt options j leg c)
                  = match direction leg with
                    | BUY => Fin (- bid q * shares_per_contract bt)
                    | SELL => Fin (ask q * shares_per_contract bt)
                    end).
  { unfold quote_row. cbn [lq_cost]. rewrite Hfind. by destruct (direction leg). }
  destruct (r_legs _ !! j) as [cb|];
    unfold fillna_legs, close_cells;
    cbn [l_cost l_order l_strike l_expiration lq_order];
    rewrite Hcost; unfold quote_row; cbn [lq_quote lq_order]; rewrite Hfind;
    cbn [fmap option_fmap option_map fillna_cell];
    by destruct (direction leg).
Qed.

Lemma forced_close_at_quotes_witness :
  exists bt1 row cell,
    _sell_options Demo.holding_c1 [Demo.call_c1 2%Z (5 # 2) (26 # 10)] 2%Z = Ok bt1 /\
    trade_log bt1 !! 0%nat = Some row /\
    c_legs row !! 0%nat = Some cell /\
    l_cost cell = Fin (- (5 # 2) * 100).
Proof.
  destruct (forced_close_at_quotes Demo.holding_c1
              [Demo.call_c1 2%Z (5 # 2) (26 # 10)] 2%Z 0%nat
              {| c_legs := [ entry_cells 100 (Demo.leg BUY Demo.is_c1)
                                          (Demo.call_c1 1%Z (19 # 10) 2) ];
                 c_totals := {| t_cost := Fin 200; t_qty := Fin 2;
                                t_date := Some 1%Z |} |})
    as (bt1 & row & Hsell & Hrow & Hlegs).
  - repeat constructor. intros H. inversion H.
  - discriminate.
  - reflexivity.
  - destruct (Hlegs 0%nat (Demo.leg BUY Demo.is_c1)
                (Demo.call_c1 2%Z (5 # 2) (26 # 10)))
      as (cell & Hcell & Hcost & _); [reflexivity | by left | reflexivity |].
    exists bt1, row, cell. split; [exact Hsell|]. split; [exact Hrow|].
    split; [exact Hcell | exact Hcost].
Defined.

End LiquidationExtra.

(** ** Option entry *)

Module EntryExtra.

Lemma entry_signals_none spc subset leg ls :
  leg ∈ ls ->
  List.filter (entry_filter leg) subset = [] ->
  entry_signals_of spc ls subset = None.
Proof.
  intros Hin Hnone. induction ls as [|l ls IH]; [by apply elem_of_nil in Hin|].
  cbn [entry_signals_of]. apply elem_of_cons in Hin as [<- | Hin].
  - by rewrite Hnone.
  - destruct (List.filter (entry_filter l) subset); [done|].
    by rewrite IH.
Qed.

(** X15. If some leg of the strategy has no candidate among the quotes of
    contracts not yet held, option entry returns without entering anything:
    the instance is unchanged, whatever the other legs would accept. *)
Theorem entries_skip_without_candidates bt d options allocation leg :
  leg ∈ legs (_options_strategy bt) ->
  (forall q, q ∈ options -> held (inventory_contracts bt) q = false ->
             entry_filter leg q = false) ->
  _execute_option_entries bt d options allocation = Ok bt.
Proof.
  intros Hin Hno. unfold _execute_option_entries.
  destruct (legs (_options_strategy bt)) as [|l ls] eqn:El;
    [by apply elem_of_nil in Hin|].
  rewrite (entry_signals_none _ _ leg); [done | exact Hin |].
  induction options as [|q qs IH]; [done|]. cbn [List.filter].
  assert (Hqs : forall q', q' ∈ qs -> held (inventory_contracts bt) q' = false ->
                           entry_filter leg q' = false).
  { intros q' Hq'. apply Hno. by right. }
  destruct (held (inventory_contracts bt) q) eqn:Eh; cbn [negb]; [by apply IH|].
  cbn [List.filter]. rewrite (Hno q) by (by left || done). by apply IH.
Qed.

Lemma entries_skip_without_candidates_witness :
  _execute_option_entries (Demo.flat Demo.long_call) 2%Z [Demo.call_c2 2%Z 1 1]
    (Fin 500) = Ok (Demo.flat Demo.long_call).
Proof.
  apply (entries_skip_without_candidates _ _ _ _ (Demo.leg BUY Demo.is_c1)).
  - by left.
  - intros q Hq _. apply list_elem_of_singleton in Hq as ->. reflexivity.
Defined.

Lemma entry_signals_some spc subset ls :
  Forall (fun leg => List.filter (entry_filter leg) subset <> []) ls ->
  entry_signals_of spc ls subset
  = Some (map (fun leg => map (entry_cells spc leg)
                              (List.filter (entry_filter leg) subset)) ls).
Proof.
  induction 1 as [|leg ls Hleg _ IH]; [done|].
  cbn [entry_signals_of map]. rewrite IH.
  by destruct (List.filter (entry_filter leg) subset).
Qed.

(** X16. When every leg has a candidate, the combination entered takes for
    each leg the first quote of the slice that is not held and passes the
    leg's entry filter: the leg records that contract, its strike and
    expiration, the entry tag, and as cost the ask times the multiplier for
    a bought leg and minus the bid times the multiplier for a sold leg. *)
Theorem entries_take_first_candidates bt d options allocation :
  legs (_options_strategy bt) <> [] ->
  Forall (fun leg =>
            List.filter (entry_filter leg)
              (List.filter (fun q => negb (held (inventory_contracts bt) q)) options)
            <> [])
         (legs (_options_strategy bt)) ->
  exists bt' entry,
    _execute_option_entries bt d options allocation = Ok bt' /\
    _options_inventory bt' = _options_inventory bt ++ [entry] /\
    trade_log bt' = trade_log bt ++ [entry] /\
    forall j leg,
      legs (_options_strategy bt) !! j = Some leg ->
      exists q rest cell,
        List.filter (entry_filter leg)
          (List.filter (fun q => negb (held (inventory_contracts bt) q)) options)
        = q :: rest /\
        c_legs entry !! j = Some cell /\
        l_contract cell = Some (optionroot q) /\
        l_strike cell = Some (strike q) /\
        l_expiration cell = Some (expiration q) /\
        l_order cell = Some (get_order (direction leg) ENTRY) /\
        l_cost cell = match direction leg with
                      | BUY => Fin (ask q * shares_per_contract bt)
                      | SELL => Fin (- bid q * shares_per_contract bt)
                      end.
Proof.
  intros Hls Hall.
  pose proof (entry_signals_some (shares_per_contract bt) _ _ Hall) as Hes.
  destruct (EntryFacts.entries_enter bt d options allocation _ Hes Hls)
    as (entry & Hlegs & _ & _ & _ & Hrun).
  eexists. exists entry. split; [exact Hrun|].
  split; [reflexivity|]. split; [reflexivity|].
  intros j leg Hleg. rewrite Forall_forall in Hall.
  specialize (Hall leg (list_elem_of_lookup_2 _ _ _ Hleg)).
  destruct (List.filter (entry_filter leg) _) as [|q rest] eqn:Ef; [done|].
  exists q, rest. eexists. split; [reflexivity|].
  rewrite Hlegs, !list_lookup_fmap, Hleg. cbn [fmap option_fmap option_map].
  rewrite Ef. cbn [map nth]. split; [reflexivity|].
  unfold entry_cells. cbn. repeat split; by destruct (direction leg).
Qed.

Lemma entries_take_first_candidates_witness :
  exists bt' entry cell,
    _execute_option_entries (Demo.flat Demo.vertical) 1%Z Demo.spread_slice (Fin 10000)
      = Ok bt' /\
    _options_inventory bt' = [entry] /\
    c_legs entry !! 1%nat = Some cell /\
    l_contract cell = Some "C2"%string /\
    l_cost cell = Fin (- (12 # 10) * 100).
Proof.
  destruct (entries_take_first_candidates (Demo.flat Demo.vertical) 1%Z
              Demo.spread_slice (Fin 10000))
    as (bt' & entry & Hrun & Hinv & _ & Hlegs).
  - discriminate.
  - repeat constructor; discriminate.
  - destruct (Hlegs 1%nat (Demo.leg SELL Demo.is_c2) eq_refl)
      as (q & rest & cell & Hq & Hcell & Hk & _ & _ & _ & Hcost).
    injection Hq as <- <-.
    exists bt', entry, cell. split; [exact Hrun|]. split; [exact Hinv|].
    split; [exact Hcell|]. split; [exact Hk | exact Hcost].
Defined.

End EntryExtra.

(** ** Rebalance and main loop *)

Module RunExtra.

Lemma extends_refl bt : extends bt bt.
Proof.
  unfold extends. repeat split; try reflexivity;
    exists []; by rewrite app_nil_r.
Qed.

Lemma extends_trans bt1 bt2 bt3 : extends bt1 bt2 -> extends bt2 bt3 -> extends bt1 bt3.
Proof.
  intros (A1 & B1 & C1 & D1 & E1 & [l1 F1] & [r1 G1])
         (A2 & B2 & C2 & D2 & E2 & [l2 F2] & [r2 G2]).
  unfold extends. repeat split; try congruence.
  - exists (l1 ++ l2). by rewrite F2, F1, app_assoc.
  - exists (r1 ++ r2). by rewrite G2, G1, app_assoc.
Qed.

Ltac frame :=
  unfold extends; cbn; repeat split; try reflexivity;
  try (exists []; by rewrite app_nil_r); try (by eexists).

Lemma sell_options_extends bt options d bt' :
  _sell_options bt options d = Ok bt' ->
  extends bt bt' /\ _options_inventory bt' = [] /\
  _stocks_inventory bt' = _stocks_inventory bt.
Proof.
  unfold _sell_options.
  destruct (_get_current_option_quotes bt options) as [[|f fs]|e];
    cbn [mbind result_bind]; [discriminate | | discriminate].
  intros [= <-]. split; [frame | by split].
Qed.

Lemma buy_stocks_extends bt stocks a sma_days bt' :
  _buy_stocks bt stocks a sma_days = Ok bt' ->
  extends bt bt' /\ _options_inventory bt' = _options_inventory bt /\
  map h_symbol (_stocks_inventory bt') = map symbol (_stocks bt).
Proof.
  unfold _buy_stocks. destruct (_ =? _)%nat eqn:E; [|discriminate].
  intros [= <-]. split; [frame|]. split; [reflexivity|]. cbn.
  apply Nat.eqb_eq in E. revert E.
  generalize (List.filter (in_symbols (map symbol (_stocks bt))) stocks).
  induction (_stocks bt) as [|st sts IH]; intros [|r rs] E;
    cbn in *; try done. f_equal. apply IH. lia.
Qed.

Lemma entries_extends bt d options a bt' :
  _execute_option_entries bt d options a = Ok bt' ->
  extends bt bt' /\
  _stocks_inventory bt' = _stocks_inventory bt /\
  exists entries,
    _options_inventory bt' = _options_inventory bt ++ entries /\
    (length entries <= 1)%nat.
Proof.
  unfold _execute_option_entries.
  destruct (legs (_options_strategy bt)); [discriminate|].
  destruct (entry_signals_of _ _ _).
  - intros [= <-]. split; [frame | split; [reflexivity|]].
    eexists. split; [reflexivity|].
      unfold _pick_entry_signals. destruct (entry_frame _ _ _); cbn; lia.
  - intros [= <-]. split; [apply extends_refl|]. split; [reflexivity|].
    exists []. split; [by rewrite app_nil_r | cbn; lia].
Qed.

Lemma rebalance_extends bt d stocks options sma_days bt' :
  _rebalance_portfolio bt d stocks options sma_days = Ok bt' ->
  extends bt bt' /\
  (length (_options_inventory bt') <= 1)%nat /\
  map h_symbol (_stocks_inventory bt') = map symbol (_stocks bt).
Proof.
  unfold _rebalance_portfolio.
  destruct (_sell_options bt options d) as [bt1|e] eqn:E1;
    cbn [mbind result_bind]; [|discriminate].
  apply sell_options_extends in E1 as (X1 & I1 & _). unfold rebuild.
  destruct (allocation_item bt1 "options"); cbn [mbind result_bind]; [|discriminate].
  destruct (allocation_item bt1 "stocks"); cbn [mbind result_bind]; [|discriminate].
  destruct (_buy_stocks _ _ _ _) as [bt2|e] eqn:E2;
    cbn [mbind result_bind]; [|discriminate].
  apply buy_stocks_extends in E2 as (X2 & I2 & S2).
  destruct (_execute_option_entries _ _ _ _) as [bt3|e] eqn:E3;
    cbn [mbind result_bind]; [|discriminate].
  apply entries_extends in E3 as (X3 & S3 & entries & I3 & L3).
  intros [= <-]. cbn [set_cash _options_inventory _stocks_inventory].
  split; [|split].
  - eapply extends_trans; [exact X1|].
    eapply (extends_trans _ (_initialize_inventories bt1)); [frame|].
    eapply extends_trans; [exact X2|].
    destruct X3 as (A & B & C & D & E & F & G).
    unfold extends. cbn. by repeat split.
  - rewrite I3, I2. cbn. exact L3.
  - rewrite S3, S2. cbn. by destruct X1 as (_ & _ & _ & -> & _).
Qed.

Lemma update_balance_extends bt s e stocks options bt' :
  _update_balance bt s e stocks options = Ok bt' ->
  extends bt bt' /\ holdings_of bt' = holdings_of bt /\
  trade_log bt' = trade_log bt.
Proof.
  unfold _update_balance.
  destruct (flush_rows _ _ _ _ _ _ _ _); cbn [mbind result_bind]; [|discriminate].
  intros [= <-]. split; [frame | by split].
Qed.

Lemma step_extends m days sma_days bt x bt' :
  step m days sma_days bt x = Ok bt' ->
  extends bt bt' /\
  ((length (_options_inventory bt) <= 1)%nat ->
   (length (_options_inventory bt') <= 1)%nat).
Proof.
  destruct x as [[d stocks] options]. unfold step.
  destruct (is_rebalancing_day days d).
  - destruct (previous_rb_date days d); cbn [mbind result_bind]; [|discriminate].
    destruct (_update_balance _ _ _ _ _) as [bt1|e] eqn:E1;
      cbn [mbind result_bind]; [|discriminate].
    apply update_balance_extends in E1 as (X1 & _ & _).
    intros E2. apply rebalance_extends in E2 as (X2 & L2 & _).
    split; [by eapply extends_trans | done].
  - intros [= <-]. split; [apply extends_refl | done].
Qed.

Lemma loop_extends m days sma_days stream : forall bt bt',
  loop m days sma_days bt stream = Ok bt' ->
  extends bt bt' /\
  ((length (_options_inventory bt) <= 1)%nat ->
   (length (_options_inventory bt') <= 1)%nat).
Proof.
  induction stream as [|x stream IH]; intros bt bt'; cbn [loop].
  - intros [= <-]. split; [apply extends_refl | done].
  - destruct (step m days sma_days bt x) as [bt1|e] eqn:E1;
      cbn [mbind result_bind]; [|discriminate].
    apply step_extends in E1 as [X1 L1]. intros E2.
    apply IH in E2 as [X2 L2]. split; [by eapply extends_trans | auto].
Qed.

(** X18. A completed rebalance rebuilds both inventories from scratch: the
    options inventory holds at most one combination, and the stock inventory
    has one holding per configured stock, under the configured symbols and in
    the configured order. *)
Theorem rebalance_rebuilds_inventories bt d stocks options sma_days bt' :
  _rebalance_portfolio bt d stocks options sma_days = Ok bt' ->
  (length (_options_inventory bt') <= 1)%nat /\
  map h_symbol (_stocks_inventory bt') = map symbol (_stocks bt).
Proof. intros H. by apply rebalance_extends in H as (_ & ? & ?). Qed.

Lemma rebalance_rebuilds_inventories_witness :
  (length (_options_inventory Demo.rebalanced_second_day) <= 1)%nat /\
  map h_symbol (_stocks_inventory Demo.rebalanced_second_day) = ["SPY"%string].
Proof.
  apply (rebalance_rebuilds_inventories Demo.after_first_day 2%Z
           [Demo.spy 2%Z 10] [Demo.call_c1 2%Z (5 # 2) (26 # 10)] None).
  vm_compute. reflexivity.
Defined.

(** X19. The main loop only appends.  Whatever the data iterator holds, a
    loop that completes leaves the allocation, the stocks and the strategy
    as they were, keeps every earlier row of the trade log and of the ledger
    in place, and never holds more than one combination if it started with
    at most one. *)
Theorem loop_appends_only m days sma_days stream bt bt' :
  loop m days sma_days bt stream = Ok bt' ->
  allocation bt' = allocation bt /\
  _stocks bt' = _stocks bt /\
  _options_strategy bt' = _options_strategy bt /\
  shares_per_contract bt' = shares_per_contract bt /\
  (exists log, trade_log bt' = trade_log bt ++ log) /\
  (exists rows, balance bt' = balance bt ++ rows) /\
  ((length (_options_inventory bt) <= 1)%nat ->
   (length (_options_inventory bt') <= 1)%nat).
Proof.
  intros H. apply loop_extends in H as [(A & B & C & D & E & F & G) L].
  by repeat split.
Qed.

Lemma loop_appends_only_witness :
  exists log, trade_log Demo.after_first_day
              = trade_log (Demo.flat Demo.long_call) ++ log.
Proof.
  destruct (loop_appends_only Demo.quoted [1%Z; 2%Z] None Demo.first_day
              (Demo.flat Demo.long_call) Demo.after_first_day)
    as (_ & _ & _ & _ & Hlog & _); [vm_compute; reflexivity|].
  exact Hlog.
Defined.

(** *** The ledger flush *)

Section FlushFacts.
Variable strategy : Strategy.
Variable spc : Q.
Variable configured : list Stock.
Variable hd : holdings.
Variables s e : date.
Variable stocks : list stock_row.
Variable options : list quote.








Lemma flat_map_nil {A B : Type} (l : list A) :
  flat_map (fun _ : A => @nil B) l = [].
Proof. induction l; [done | exact IHl]. Qed.

Lemma add_legs_empty ls : forall i t acc,
  hd_options hd = [] ->
  add_legs spc hd s e options i ls t acc = Ok acc.
Proof.
  induction ls as [|leg ls IH]; intros i t acc Hopt; cbn [add_legs]; [done|].
  rewrite Hopt. cbn [add_contracts mbind result_bind]. by apply IH.
Qed.

Lemma ledger_rows_empty_holdings ts :
  hd_stocks hd = [] -> hd_options hd = [] ->
  takes_quote_index configured hd s e stocks = true ->
  (forall t, t ∈ ts -> existsb (fun q => (quotedate q =? t)%Z)
                               (options_data s e options) = true) ->
  exists rows,
    ledger_rows strategy spc configured hd s e stocks options ts = Ok rows /\
    map b_date rows = ts /\
    Forall (fun r => b_cash r = NaN /\ b_options_qty r = NaN /\
                     b_calls_capital r = Fin 0 /\ b_puts_capital r = Fin 0 /\
                     b_stocks_qty r = Fin 0) rows.
Proof.
  intros Hst Hopt Ht. induction ts as [|t ts IH]; intros Hts; cbn [ledger_rows].
  - by exists [].
  - destruct IH as (rs & -> & Hd & Hf); [intros t' Ht'; apply Hts; by right|].
    unfold ledger_row, option_values.
    rewrite (add_legs_empty _ _ _ _ Hopt). cbn [mbind result_bind].
    rewrite (Hts t) by (by left). cbn [mbind result_bind].
    eexists. split; [reflexivity|]. split; [cbn; by rewrite Hd|].
    constructor; [|exact Hf]. cbn. by rewrite Ht, Hst.
Qed.

(** X21. A ledger flush with no configured stock never appends a row: it
    raises (ValueError when no option is held).  With a stock configured
    and no option held, a flush over an empty interval (as on the first
    rebalancing date, where the previous date is the date itself) appends no
    row, and a flush from an empty stock inventory appends one row per quote
    date of the period, in the order of the options table, with NaN as cash
    and as options quantity, 0 as calls and puts capital and 0 as stocks
    quantity. *)
Theorem flush_rows_empty :
  (configured = [] ->
   (forall rows,
      flush_rows strategy spc configured hd s e stocks options <> Ok rows) /\
   (hd_options hd = [] ->
    flush_rows strategy spc configured hd s e stocks options = Raise ValueError)) /\
  (configured <> [] -> hd_options hd = [] ->
   ((e <= s)%Z ->
    flush_rows strategy spc configured hd s e stocks options = Ok []) /\
   (hd_stocks hd = [] ->
    exists rows,
      flush_rows strategy spc configured hd s e stocks options = Ok rows /\
      map b_date rows = quote_index s e options /\
      Forall (fun r => b_cash r = NaN /\ b_options_qty r = NaN /\
                       b_calls_capital r = Fin 0 /\ b_puts_capital r = Fin 0 /\
                       b_stocks_qty r = Fin 0) rows)).
Proof.
  split.
  - intros ->. split.
    + intros rows. unfold flush_rows.
      by destruct (add_legs _ _ _ _ _ _ _ _ _).
    + intros Hopt. unfold flush_rows. by rewrite (add_legs_empty _ _ _ _ Hopt).
  - intros Hc Hopt.
    assert (Hflush : flush_rows strategy spc configured hd s e stocks options
                     = ledger_rows strategy spc configured hd s e stocks options
                         (add_index configured hd s e stocks options)).
    { unfold flush_rows. rewrite (add_legs_empty _ _ _ _ Hopt).
      cbn [mbind result_bind]. by destruct configured. }
    split.
    + intros Hle.
      assert (Ep : forall t, in_period s e t = false).
      { intros t. unfold in_period.
        destruct (Z.leb_spec s t), (Z.ltb_spec t e); cbn; try reflexivity. lia. }
      assert (E1 : stocks_data s e stocks = []).
      { unfold stocks_data. apply RunFacts.filter_none, Forall_forall.
        intros r _. apply Ep. }
      assert (E2 : options_data s e options = []).
      { unfold options_data. apply RunFacts.filter_none, Forall_forall.
        intros q _. apply Ep. }
      assert (E3 : add_index configured hd s e stocks options = []).
      { unfold add_index, takes_quote_index, stock_index, quote_index, stock_frame,
          stocks_current.
        rewrite E1, E2. cbn [List.filter map].
        rewrite flat_map_nil. cbn [List.filter map]. by rewrite flat_map_nil. }
      by rewrite Hflush, E3.
    + intros Hst.
      assert (Et : takes_quote_index configured hd s e stocks = true).
      { unfold takes_quote_index, stock_index, stock_frame, stocks_current.
        rewrite Hst. cbn [flat_map List.filter map]. by rewrite flat_map_nil. }
      rewrite Hflush. unfold add_index. rewrite Et.
      apply ledger_rows_empty_holdings; [done..|].
      intros t Hin. unfold quote_index in Hin.
      rewrite elem_of_reverse, elem_of_remove_dups, elem_of_reverse,
        list_elem_of_fmap in Hin.
      destruct Hin as (q & -> & Hq). apply existsb_exists.
      exists q. split; [by apply list_elem_of_In | apply Z.eqb_refl].
Qed.

End FlushFacts.


Lemma flush_rows_empty_witness :
  exists rows,
    flush_rows Demo.long_call 100 Demo.portfolio
               (holdings_of (Demo.flat Demo.long_call))
               1%Z 3%Z (m_stocks Demo.quoted) (m_options Demo.quoted) = Ok rows /\
    map b_date rows = [1%Z; 2%Z] /\
    Forall (fun r => b_cash r = NaN) rows.
Proof.
  edestruct (flush_rows_empty Demo.long_call 100 Demo.portfolio
               (holdings_of (Demo.flat Demo.long_call))
               1%Z 3%Z (m_stocks Demo.quoted) (m_options Demo.quoted))
    as [_ Hp].
  destruct Hp as [_ Hrows]; [discriminate | reflexivity |].
  destruct Hrows as (rows & Hf & Hd & Hall); [reflexivity|].
  exists rows. split; [exact Hf|]. split; [exact Hd|].
  eapply Forall_impl; [exact Hall|]. by intros r [Hc _].
Defined.

(** *** Rebalancing days *)

Lemma loop_skips m days sma_days stream : forall bt,
  Forall (fun x => is_rebalancing_day days (entry_date x) = false) stream ->
  loop m days sma_days bt stream = Ok bt.
Proof.
  induction stream as [|x stream IH]; intros bt Hall; [done|].
  inversion Hall as [|? ? Hx Hrest]; subst. cbn [loop].
  rewrite RunFacts.step_skip by done. cbn [mbind result_bind]. by apply IH.
Qed.

(** X22. With a rebalance frequency of 0 the only rebalancing day is the
    start date: the loop does what its turn for the first item does, and
    every later item, none being dated on the start date, leaves the
    instance as it is. *)
Theorem single_rebalance m sma_days bt x rest :
  Forall (fun y => entry_date y <> start_date m) rest ->
  rebalancing_days m 0 = [start_date m] /\
  loop m (rebalancing_days m 0) sma_days bt (x :: rest)
  = step m (rebalancing_days m 0) sma_days bt x.
Proof.
  intros Hrest. split; [reflexivity|]. cbn [loop].
  destruct (step m (rebalancing_days m 0) sma_days bt x) as [bt1|err];
    cbn [mbind result_bind]; [|reflexivity].
  apply loop_skips. eapply Forall_impl; [exact Hrest|].
  intros y Hy. cbn. unfold is_rebalancing_day. cbn.
  destruct (Z.eqb_spec (entry_date y) (start_date m)); [contradiction | reflexivity].
Qed.

Lemma single_rebalance_witness :
  loop Demo.quoted (rebalancing_days Demo.quoted 0) None (Demo.flat Demo.long_call)
       (Demo.first_day ++ Demo.second_day :: Demo.third_day)
  = Ok Demo.after_first_day.
Proof.
  cbn [app Demo.first_day].
  rewrite (proj2 (single_rebalance Demo.quoted None (Demo.flat Demo.long_call)
                    (1%Z, [Demo.spy 1%Z 10], [Demo.call_c1 1%Z (19 # 10) 2])
                    (Demo.second_day :: Demo.third_day)
                    ltac:(repeat constructor; discriminate))).
  vm_compute. reflexivity.
Defined.

Lemma positions_present d l : d ∈ l -> positions d l <> [].
Proof.
  induction l as [|a l IH]; intros Hd; [by apply elem_of_nil in Hd|].
  rewrite RunFacts.positions_cons.
  destruct (Z.eqb_spec a d) as [->|Hne]; [discriminate|].
  apply elem_of_cons in Hd as [-> | Hd]; [done|].
  cbn [app]. specialize (IH Hd). by destruct (positions d l).
Qed.

(** X23. When a rebalance frequency is set and the start date is itself one
    of the generated month-start dates, the start date occurs twice among
    the rebalancing days; its position is then a slice, and the run raises
    TypeError on its first item, before any flush or rebalance. *)
Theorem repeated_start_raises c stocks strategy m x rest rebalance_freq sma_days :
  rebalance_freq <> 0%Z ->
  start_date m ∈ bms m ->
  entry_date x = start_date m ->
  run c stocks strategy m (x :: rest) rebalance_freq sma_days = Raise TypeError.
Proof.
  intros Hf Hin Hx. destruct x as [[d st] op]. unfold entry_date in Hx.
  cbn [fst] in Hx. subst d. unfold run. cbn [loop]. unfold step.
  unfold rebalancing_days. apply Z.eqb_neq in Hf. rewrite Hf.
  unfold is_rebalancing_day. cbn [existsb]. rewrite Z.eqb_refl. cbn [orb].
  unfold previous_rb_date. rewrite RunFacts.positions_cons, Z.eqb_refl.
  pose proof (positions_present _ _ Hin) as Hp.
  destruct (positions (start_date m) (bms m)) as [|p ps]; [done|].
  reflexivity.
Qed.

Lemma repeated_start_raises_witness :
  run Demo.config Demo.portfolio Demo.long_call
      {| m_stocks := m_stocks Demo.quoted; m_options := m_options Demo.quoted;
         start_date := 1%Z; end_date := 3%Z; bms := [1%Z; 2%Z] |}
      (Demo.first_day ++ Demo.second_day :: Demo.third_day) 1%Z None
  = Raise TypeError.
Proof.
  apply repeated_start_raises; [discriminate | by left | reflexivity].
Defined.

Lemma fold_nan (l : list num) : fold_left num_add l NaN = NaN.
Proof. induction l as [|x l IH]; [done | exact IH]. Qed.

Lemma derive_first_row (ic : Q) (d : date) (cells : list num) :
  Forall (fun x => x = NaN) cells ->
  num_eq (b_total_capital
            (derive {| b_date := d; b_total_capital := Fin ic; b_cash := Fin ic;
                       b_stocks := cells; b_options_qty := NaN;
                       b_calls_capital := NaN; b_puts_capital := NaN;
                       b_stocks_qty := NaN; b_options_capital := NaN;
                       b_stocks_capital := NaN |}))
         (Fin ic).
Proof.
  intros Hc. unfold derive. cbn [b_total_capital b_cash b_stocks].
  assert (E : py_sum cells = Fin 0 \/ py_sum cells = NaN).
  { destruct Hc as [|x l -> _]; [by left|]. right.
    unfold py_sum. cbn. apply fold_nan. }
  destruct E as [-> | ->]; cbn; unfold Qeq; cbn; lia.
Qed.

(** X24. In every completed run the ledger starts with the row written
    before the loop: dated one day before the start date, with the initial
    capital as cash and, after the derived columns are computed, as total
    capital. *)
Theorem ledger_first_row c stocks strategy m stream rebalance_freq sma_days bt :
  run c stocks strategy m stream rebalance_freq sma_days = Ok bt ->
  exists r rest,
    balance bt = r :: rest /\
    b_date r = (start_date m - 1)%Z /\
    b_cash r = Fin (Init.initial_capital c) /\
    num_eq (b_total_capital r) (Fin (Init.initial_capital c)).
Proof.
  unfold run.
  destruct (loop _ _ _ _ _) as [bt1|err] eqn:E1; cbn [mbind result_bind]; [|discriminate].
  destruct (_update_balance _ _ _ _ _) as [bt2|err] eqn:E2;
    cbn [mbind result_bind]; [|discriminate].
  intros [= <-].
  apply loop_extends in E1 as [(_ & _ & _ & _ & _ & _ & [rows Hrows]) _].
  apply update_balance_extends in E2 as [(_ & _ & _ & _ & _ & _ & [add Hadd]) _].
  cbn [set_balance balance]. rewrite Hadd, Hrows. cbn [start balance app map].
  eexists. eexists. split; [reflexivity|]. split; [reflexivity|].
  split; [reflexivity|]. apply derive_first_row.
  apply Forall_forall. intros y Hy.
  apply list_elem_of_fmap in Hy as (? & -> & _). reflexivity.
Qed.

Lemma ledger_first_row_witness :
  exists bt r rest,
    Demo.run_on Demo.long_call Demo.quoted = Ok bt /\
    balance bt = r :: rest /\
    b_date r = 0%Z /\
    num_eq (b_total_capital r) (Fin 1000).
Proof.
  eexists.
  edestruct (ledger_first_row Demo.config Demo.portfolio Demo.long_call Demo.quoted
               (Demo.iter_dates Demo.quoted) 1%Z None)
    as (r & rest & Hbal & Hd & _ & Ht); [vm_compute; reflexivity|].
  exists r, rest. split; [vm_compute; reflexivity|].
  split; [exact Hbal|]. split; [exact Hd | exact Ht].
Defined.

End RunExtra.

(** ** The current options capital *)

Module CapitalExtra.

Lemma capital_from_empty bt options ls : forall i (a : Q),
  _options_inventory bt = [] ->
  exists A : Q, capital_from bt options i ls (Fin a) = Fin A /\ A == a.
Proof.
  induction ls as [|leg ls IH]; intros i a Hinv; cbn [capital_from].
  - by exists a.
  - unfold leg_capital. rewrite Hinv. cbn.
    destruct (IH (S i) (a + 0) Hinv) as (A & -> & HA).
    exists A. split; [reflexivity|]. rewrite HA. ring.
Qed.

(** X25. On an empty options inventory the current options capital is 0 for
    every strategy and every slice: the failed access to the first row is
    caught for each leg and counted as nothing. *)
Theorem options_capital_empty bt options :
  _options_inventory bt = [] ->
  num_eq (_current_options_capital bt options) (Fin 0).
Proof.
  intros Hinv. unfold _current_options_capital.
  destruct (capital_from_empty bt options (legs (_options_strategy bt)) 0 0 Hinv)
    as (A & -> & HA).
  exact HA.
Qed.

Lemma options_capital_empty_witness :
  num_eq (_current_options_capital (Demo.flat Demo.vertical) Demo.spread_slice) (Fin 0).
Proof. apply options_capital_empty. reflexivity. Defined.

End CapitalExtra.
